(** * McKathlin Day-Night Cycle (RPG Maker MV plugin)

    A shallow embedding of [McKathlin_DayNight.js] (the copy of the script
    that has the tone parsers and the tone resolution) and the properties of
    its time values, parsers, tone resolution and clock controller.

    Numbers are modelled as integers ([Z]) together with [NaN]; the plugin
    counts whole minutes.  The objects the plugin keeps in its own name space
    ([McKathlin], [McKathlin.DayNight], [McKathlin.DayNight.Param],
    [McKathlin.DayNightCycle]) are finite maps from property names to values,
    so that reading a property that no statement of the plugin assigns yields
    [undefined], as it does when the script runs. *)

From Stdlib Require Import ZArith String Ascii List Bool Lia.
From stdpp Require Import base option list gmap strings pretty.

Set Warnings "-register-all".

Local Open Scope Z_scope.

(** ** Outcomes of a call *)

(** What a [throw] carries: an [Error] built by the plugin with its message,
    or the [TypeError] the language raises when a property of [undefined] or
    [null] is read or a non-function is called. *)
Inductive exn : Type :=
| Error (message : string)
| TypeError (what : string).

(** A call returns, throws, or meets an operand of a kind this model leaves
    out ([Unmodelled]: a coercion of a string, an array or a plain object to a
    number, and the like). *)
Inductive outcome (A : Type) : Type :=
| Return (a : A)
| Throw (e : exn)
| Unmodelled.
Arguments Return {A} a.
Arguments Throw {A} e.
Arguments Unmodelled {A}.

#[global] Instance outcome_ret : MRet outcome := @Return.
#[global] Instance outcome_bind : MBind outcome := fun A B f m =>
  match m with
  | Return a => f a
  | Throw e => Throw e
  | Unmodelled => Unmodelled
  end.

Definition returns {A} (m : outcome A) : Prop := exists a, m = Return a.

(** ** Values *)

(** The values held by the plugin's objects.  A [TimeSpan] instance is its
    total number of minutes; an array is the list of its elements; a plain
    object is the map of its own data properties. *)
Inductive value : Type :=
| VUndefined
| VNull
| VBool (b : bool)
| VNaN
| VNum (n : Z)
| VString (s : string)
| VTimeSpan (minutes : Z)
| VArray (elements : list value)
| VObject (props : gmap string value).

(** [o.name] for a plain object [o]: the property when present, [undefined]
    otherwise. *)
Definition prop (o : gmap string value) (name : string) : value :=
  default VUndefined (o !! name).

(** [v.name] and [v[name]] for any value: a [TypeError] on [undefined] and
    [null]; own data properties of plain objects; the elements of an array
    are not addressed by name in this program. *)
Definition get (v : value) (name : string) : outcome value :=
  match v with
  | VUndefined => Throw (TypeError ("Cannot read property '" +:+ name +:+ "' of undefined"))
  | VNull => Throw (TypeError ("Cannot read property '" +:+ name +:+ "' of null"))
  | VObject o => Return (prop o name)
  | _ => Unmodelled
  end.

(** ToBoolean. *)
Definition truthy (v : value) : bool :=
  match v with
  | VUndefined | VNull | VNaN => false
  | VBool b => b
  | VNum n => negb (n =? 0)
  | VString s => negb (String.eqb s "")
  | VTimeSpan _ | VArray _ | VObject _ => true
  end.

(** ToNumber, [None] standing for NaN.  A [TimeSpan] converts through its
    [valueOf], which returns the total minutes. *)
Definition ToNumber (v : value) : outcome (option Z) :=
  match v with
  | VUndefined | VNaN => Return None
  | VNull => Return (Some 0)
  | VBool b => Return (Some (if b then 1 else 0))
  | VNum n => Return (Some n)
  | VTimeSpan m => Return (Some m)
  | VString _ | VArray _ | VObject _ => Unmodelled
  end.

(** [x < v] and [x >= v] for a number [x]: false as soon as [v] converts to
    NaN. *)
Definition js_lt (x : Z) (v : value) : outcome bool :=
  n ← ToNumber v;
  mret (match n with Some y => x <? y | None => false end).

Definition js_ge (x : Z) (v : value) : outcome bool :=
  n ← ToNumber v;
  mret (match n with Some y => y <=? x | None => false end).

(** [v > 0]. *)
Definition js_positive (v : value) : outcome bool :=
  n ← ToNumber v;
  mret (match n with Some y => 0 <? y | None => false end).

(** [a == b] on primitive values: [undefined] and [null] equal each other
    and nothing else, two strings are compared as texts, numbers and
    booleans as numbers. *)
Definition js_eq (a b : value) : outcome bool :=
  match a, b with
  | (VUndefined | VNull), (VUndefined | VNull) => Return true
  | (VUndefined | VNull), _ | _, (VUndefined | VNull) => Return false
  | VString s, VString t => Return (String.eqb s t)
  | (VNum _ | VNaN | VBool _), (VNum _ | VNaN | VBool _) =>
      x ← ToNumber a; y ← ToNumber b;
      mret (match x, y with Some x, Some y => x =? y | _, _ => false end)
  | _, _ => Unmodelled
  end.

(** [Math.floor((time - start) / per)]; [None] stands for NaN and for the
    infinities of a division by zero, none of which is an array index. *)
Definition js_floorDiv (time : Z) (start per : value) : outcome (option Z) :=
  s ← ToNumber start; p ← ToNumber per;
  mret (match s, p with
        | Some s, Some p => if p =? 0 then None else Some ((time - s) / p)
        | _, _ => None
        end).

(** The element of an array at an integer index, [undefined] out of
    range. *)
Definition phaseAt (elements : list value) (i : Z) : value :=
  if i <? 0 then VUndefined else default VUndefined (elements !! Z.to_nat i).

(** [a[i]] for an array [a] and a number [i]. *)
Definition index (a : value) (i : option Z) : outcome value :=
  match a with
  | VUndefined => Throw (TypeError "Cannot read property of undefined")
  | VNull => Throw (TypeError "Cannot read property of null")
  | VArray l =>
      Return (match i with
              | Some i => phaseAt l i
              | None => VUndefined
              end)
  | _ => Unmodelled
  end.

(** The text of a number inside a message. *)
Definition messageText (v : value) : outcome string :=
  match v with
  | VNum n => Return (pretty n)
  | _ => Unmodelled
  end.

(** ** Constants *)

Definition MINUTES_PER_HOUR : Z := 60.
Definition HOURS_PER_DAY : Z := 24.
Definition MINUTES_PER_DAY : Z := MINUTES_PER_HOUR * HOURS_PER_DAY.

(** ** The TimeSpan class *)

(** The [totalMinutes] accessor.  For a plain [TimeSpan] it reads and writes
    the field [_totalMinutes]; [McKathlin.DayNightCycle] redefines it, and the
    prototype's methods below run against either. *)
Class TotalMinutesGet (O : Type) := totalMinutes : O -> Z.
Class TotalMinutesSet (O : Type) := set_totalMinutes : Z -> O -> outcome O.

Record TimeSpan : Type := { _totalMinutes : Z }.

#[global] Instance TimeSpan_get : TotalMinutesGet TimeSpan := _totalMinutes.
#[global] Instance TimeSpan_set : TotalMinutesSet TimeSpan :=
  fun v _ => Return {| _totalMinutes := v |}.

(** [new McKathlin.TimeSpan(days, hours, minutes)] for arguments that are
    numbers or left out; [None] is an argument left out, [undefined] or NaN,
    each of which [x || 0] turns into 0. *)
Definition initialize (days hours minutes : option Z) : TimeSpan :=
  let days := default 0 days in
  let hours := default 0 hours in
  let minutes := default 0 minutes in
  let totalMins := days * MINUTES_PER_DAY in
  let totalMins := totalMins + hours * MINUTES_PER_HOUR in
  let totalMins := totalMins + minutes in
  {| _totalMinutes := totalMins |}.

(** The prototype's methods.  [%] takes the sign of the dividend ([Z.rem]);
    [Math.floor(a / b)] is the floored quotient ([Z.div]). *)
Definition getMinutes {O} `{TotalMinutesGet O} (this : O) : Z :=
  Z.rem (totalMinutes this) MINUTES_PER_HOUR.

Definition getHours {O} `{TotalMinutesGet O} (this : O) : Z :=
  Z.rem (totalMinutes this / MINUTES_PER_HOUR) HOURS_PER_DAY.

Definition getDays {O} `{TotalMinutesGet O} (this : O) : Z :=
  totalMinutes this / MINUTES_PER_DAY.

Definition getTotalHours {O} `{TotalMinutesGet O} (this : O) : Z :=
  totalMinutes this / MINUTES_PER_HOUR.

Definition getTotalMinutes {O} `{TotalMinutesGet O} (this : O) : Z :=
  totalMinutes this.

Definition getMinutesOfDay {O} `{TotalMinutesGet O} (this : O) : Z :=
  Z.rem (totalMinutes this) MINUTES_PER_DAY.

(** [this.totalMinutes += minutes; return this.totalMinutes]: the object
    after the assignment; the number returned is its [totalMinutes]. *)
Definition addMinutes {O} `{TotalMinutesGet O} `{TotalMinutesSet O} (minutes : Z) (this : O) : outcome O :=
  set_totalMinutes (totalMinutes this + minutes) this.

Definition setTotalMinutes {O} `{TotalMinutesSet O} (minutes : Z) (this : O) : outcome O :=
  set_totalMinutes minutes this.

(** The [difference] that [setForwardTo] adds. *)
Definition forwardDifference {O T} `{TotalMinutesGet O} `{TotalMinutesGet T}
    (this : O) (timeOfDay : T) : Z :=
  let theirMinutesToday := getMinutesOfDay timeOfDay in
  let myMinutesToday := getMinutesOfDay this in
  let difference := theirMinutesToday - myMinutesToday in
  if difference <? 0 then difference + MINUTES_PER_DAY else difference.

Definition setForwardTo {O T} `{TotalMinutesGet O} `{TotalMinutesSet O} `{TotalMinutesGet T}
    (timeOfDay : T) (this : O) : outcome O :=
  set_totalMinutes (totalMinutes this + forwardDifference this timeOfDay) this.

(** ** Strings and regular expressions *)

(** Texts are strings of ASCII characters: the patterns below tell apart
    digits, a few punctuation marks and the letters a, p, m, d, h. *)

Definition isDigit (a : ascii) : bool :=
  let n := N_of_ascii a in ((48 <=? n) && (n <=? 57))%N.

Definition isChar (c : ascii) (a : ascii) : bool := Ascii.eqb a c.

(** A letter under the [i] flag: either case. *)
Definition isLetterCI (lower upper : ascii) (a : ascii) : bool :=
  Ascii.eqb a lower || Ascii.eqb a upper.

(** The regular expressions of the plugin: character classes, sequences,
    greedy options, greedy bounded or unbounded repetitions of a class, and
    numbered capturing groups. *)
Inductive regex : Type :=
| Class (p : ascii -> bool)
| Seq (r1 r2 : regex)
| Opt (r : regex)
| Repeat (p : ascii -> bool) (min : nat) (max : option nat)
| Group (i : nat) (r : regex).

(** The text consumed between [s] and its suffix [rest]. *)
Definition taken (s rest : string) : string :=
  substring 0 (String.length s - String.length rest) s.
Arguments taken : simpl never.

Definition captures := gmap nat string.

(** Greedy repetition of a class with backtracking: take one more character
    when allowed and when the rest then matches; otherwise stop here, if
    [min] characters were taken. *)
Fixpoint repeatClass {R : Type} (p : ascii -> bool) (min : nat) (max : option nat)
    (s : string) (k : string -> option R) : option R :=
  let stop := match min with O => k s | S _ => None end in
  match s with
  | EmptyString => stop
  | String a s' =>
      if p a && match max with Some O => false | _ => true end
      then match repeatClass p (Nat.pred min) (Nat.pred <$> max) s' k with
           | Some x => Some x
           | None => stop
           end
      else stop
  end.

(** The backtracking matcher, in continuation-passing style: [k] is what
    remains to be matched after [r]. *)
Fixpoint run {R : Type} (r : regex) (s : string) (c : captures)
    (k : string -> captures -> option R) : option R :=
  match r with
  | Class p =>
      match s with
      | String a s' => if p a then k s' c else None
      | EmptyString => None
      end
  | Seq r1 r2 => run r1 s c (fun s1 c1 => run r2 s1 c1 k)
  | Opt r1 =>
      match run r1 s c k with
      | Some x => Some x
      | None => k s c
      end
  | Repeat p min max => repeatClass p min max s (fun s' => k s' c)
  | Group i r1 => run r1 s c (fun s' c' => k s' (<[i := taken s s']> c'))
  end.

(** A match: the matched text, the groups that took part, and the text
    after the match. *)
Record MatchResult : Type := {
  matched : string;
  groups : captures;
  after : string
}.

Definition matchHere (r : regex) (s : string) : option MatchResult :=
  run r s ∅ (fun rest c => Some {| matched := taken s rest; groups := c; after := rest |}).

(** [s.match(r)] without the [g] flag: the match at the leftmost position
    that has one. *)
Fixpoint search (r : regex) (s : string) : option MatchResult :=
  match matchHere r s with
  | Some m => Some m
  | None =>
      match s with
      | EmptyString => None
      | String _ s' => search r s'
      end
  end.

(** [s.match(r)] with the [g] flag: the matched texts from left to right,
    each search starting where the previous match ended (one character
    further after an empty match). *)
Fixpoint matchAll (fuel : nat) (r : regex) (s : string) : list string :=
  match fuel with
  | O => []
  | S fuel' =>
      match search r s with
      | None => []
      | Some m =>
          let next := match matched m, after m with
                      | EmptyString, String _ t => t
                      | _, t => t
                      end in
          matched m :: match matched m, after m with
                       | EmptyString, EmptyString => []
                       | _, _ => matchAll fuel' r next
                       end
      end
  end.

Definition matchGlobal (r : regex) (s : string) : list string :=
  matchAll (S (String.length s)) r s.

(** ** Number conversions *)

Definition digitValue (a : ascii) : Z := Z.of_N (N_of_ascii a) - 48.

(** The value of a run of decimal digits read after [acc]. *)
Fixpoint digitsValue (acc : Z) (s : string) : Z :=
  match s with
  | EmptyString => acc
  | String a s' => digitsValue (10 * acc + digitValue a) s'
  end.

Fixpoint allOf (p : ascii -> bool) (s : string) : bool :=
  match s with
  | EmptyString => true
  | String a s' => p a && allOf p s'
  end.

Definition allDigits : string -> bool := allOf isDigit.

(** What a regular expression matches, apart from the order in which the
    matcher tries the alternatives: [matches r t c c'] when [r] can consume
    the text [t], turning the captures [c] into [c']. *)
Inductive matches : regex -> string -> captures -> captures -> Prop :=
| matches_Class p a c :
    p a = true -> matches (Class p) (String a EmptyString) c c
| matches_Seq r1 r2 t1 t2 c c1 c2 :
    matches r1 t1 c c1 -> matches r2 t2 c1 c2 ->
    matches (Seq r1 r2) (t1 +:+ t2) c c2
| matches_Opt_some r t c c' :
    matches r t c c' -> matches (Opt r) t c c'
| matches_Opt_none r c :
    matches (Opt r) EmptyString c c
| matches_Repeat p min max t c :
    allOf p t = true -> (min <= String.length t)%nat ->
    (forall m, max = Some m -> (String.length t <= m)%nat) ->
    matches (Repeat p min max) t c c
| matches_Group i r t c c' :
    matches r t c c' -> matches (Group i r) t c (<[i := t]> c').

(** [r] matches somewhere in [s]. *)
Definition occursIn (r : regex) (s : string) : Prop :=
  exists before t rest c, s = before +:+ t +:+ rest /\ matches r t ∅ c.

(** The longest prefix of decimal digits, and what follows it. *)
Fixpoint spanDigits (s : string) : string * string :=
  match s with
  | String a s' =>
      if isDigit a then let '(d, rest) := spanDigits s' in (String a d, rest)
      else (EmptyString, s)
  | EmptyString => (EmptyString, EmptyString)
  end.

(** [toUpperCase] and [toLowerCase] on ASCII letters. *)
Definition upperChar (a : ascii) : ascii :=
  let n := N_of_ascii a in
  if ((97 <=? n) && (n <=? 122))%N then ascii_of_N (n - 32) else a.

Definition lowerChar (a : ascii) : ascii :=
  let n := N_of_ascii a in
  if ((65 <=? n) && (n <=? 90))%N then ascii_of_N (n + 32) else a.

Fixpoint mapString (f : ascii -> ascii) (s : string) : string :=
  match s with
  | EmptyString => EmptyString
  | String a s' => String (f a) (mapString f s')
  end.

Definition toUpperCase : string -> string := mapString upperChar.
Definition toLowerCase : string -> string := mapString lowerChar.

Definition isWhiteSpace (a : ascii) : bool :=
  let n := N_of_ascii a in (((9 <=? n) && (n <=? 13)) || (n =? 32))%N.

Fixpoint trimStart (s : string) : string :=
  match s with
  | String a s' => if isWhiteSpace a then trimStart s' else s
  | EmptyString => EmptyString
  end.

(** The text without its trailing white space. *)
Fixpoint trimEnd (s : string) : string :=
  match s with
  | EmptyString => EmptyString
  | String a s' =>
      match trimEnd s' with
      | EmptyString => if isWhiteSpace a then EmptyString else String a EmptyString
      | t => String a t
      end
  end.

Definition trim (s : string) : string := trimEnd (trimStart s).

(** An optionally signed run of decimal digits. *)
Definition signedDigits (s : string) : option Z :=
  match s with
  | EmptyString => None
  | String a d =>
      if isChar "-" a || isChar "+" a
      then match d with
           | EmptyString => None
           | _ => if allDigits d
                  then Some (if isChar "-" a then - digitsValue 0 d else digitsValue 0 d)
                  else None
           end
      else if allDigits s then Some (digitsValue 0 s) else None
  end.

(** [Number(s)], [None] standing for NaN: the text without surrounding
    white space is empty (0) or an optionally signed run of decimal digits;
    numerals of other forms (fractions, exponents, radix prefixes) and texts
    that are no numerals are left out. *)
Definition Number (s : string) : outcome (option Z) :=
  match trim s with
  | EmptyString => Return (Some 0)
  | t => match signedDigits t with
         | Some n => Return (Some n)
         | None => Unmodelled
         end
  end.

(** [Number.parseInt(s)]: leading white space is skipped, a sign is read,
    then the longest run of decimal digits; NaN when there is none.  A [0x]
    prefix (radix 16) is left out. *)
Definition hasHexPrefix (s : string) : bool :=
  match s with
  | String a (String b _) => isChar "0" a && (isChar "x" b || isChar "X" b)
  | _ => false
  end.

Definition parseDigitsPrefix (s : string) : outcome (option Z) :=
  if hasHexPrefix s then Unmodelled
  else match spanDigits s with
       | (EmptyString, _) => Return None
       | (d, _) => Return (Some (digitsValue 0 d))
       end.

Definition parseInt (s : string) : outcome (option Z) :=
  match trimStart s with
  | EmptyString => Return None
  | String a t =>
      if isChar "-" a then n ← parseDigitsPrefix t; mret (Z.opp <$> (n : option Z))
      else if isChar "+" a then parseDigitsPrefix t
      else parseDigitsPrefix (String a t)
  end.

(** ** Time parsing *)

(** [/(\d{1,2}):(\d{2}) ?(?:([ap])m?)?/i]; its last part, [ ?(?:([ap])m?)?],
    has a name of its own. *)
Definition isMeridiemLetter (a : ascii) : bool :=
  isLetterCI "a" "A" a || isLetterCI "p" "P" a.

Definition meridiemPattern : regex :=
  Seq (Opt (Class (isChar " ")))
      (Opt (Seq (Group 3 (Class isMeridiemLetter)) (Opt (Class (isLetterCI "m" "M"))))).

Definition timeOfDayPattern : regex :=
  Seq (Group 1 (Repeat isDigit 1 (Some 2%nat)))
 (Seq (Class (isChar ":"))
 (Seq (Group 2 (Repeat isDigit 2 (Some 2%nat)))
      meridiemPattern)).

(** [Number(match[i])]: a group that took no part is [undefined], whose
    number is NaN. *)
Definition NumberOfGroup (m : MatchResult) (i : nat) : outcome (option Z) :=
  match groups m !! i with
  | Some s => Number s
  | None => Return None
  end.

Definition parseTimeOfDay (timeString : string) : outcome TimeSpan :=
  match search timeOfDayPattern timeString with
  | None => Throw (Error ("Invalid time-of-day string: " +:+ timeString))
  | Some m =>
      hours ← NumberOfGroup m 1;
      minutes ← NumberOfGroup m 2;
      let is12 := match hours with Some h => 12 =? h | None => false end in
      let hours :=
        match groups m !! 3%nat with
        | Some suffix =>
            if String.eqb suffix "" then hours
            else if String.eqb "P" (toUpperCase suffix)
                 then (if negb is12 then Z.add 12 <$> hours else hours)
                 else (if is12 then Some 0 else hours)
        | None => hours
        end in
      mret (initialize (Some 0) hours minutes)
  end.

(** [/(\d+) ?d/i], [/(\d+) ?h/i], [/(\d+) ?m/i] *)
Definition unitPattern (lower upper : ascii) : regex :=
  Seq (Group 1 (Repeat isDigit 1 None))
 (Seq (Opt (Class (isChar " "))) (Class (isLetterCI lower upper))).

Definition unitCount (lower upper : ascii) (timeSpanString : string) : outcome (option Z) :=
  match search (unitPattern lower upper) timeSpanString with
  | Some m => NumberOfGroup m 1
  | None => Return (Some 0)
  end.

Definition parseTimeSpan (timeSpanString : string) : outcome TimeSpan :=
  days ← unitCount "d" "D" timeSpanString;
  hours ← unitCount "h" "H" timeSpanString;
  minutes ← unitCount "m" "M" timeSpanString;
  mret (initialize days hours minutes).

(** ** Tone parsing *)

Definition isSeparator (a : ascii) : bool := isChar "," a || isChar " " a.

Definition signedInt : regex := Seq (Opt (Class (isChar "-"))) (Repeat isDigit 1 None).
Definition separators : regex := Repeat isSeparator 1 None.

(** [/(-?\d+)[, ]+(-?\d+)[, ]+(-?\d+)[, ]+(\d+)/] *)
Definition tonePattern : regex :=
  Seq (Group 1 signedInt)
 (Seq separators
 (Seq (Group 2 signedInt)
 (Seq separators
 (Seq (Group 3 signedInt)
 (Seq separators
      (Group 4 (Repeat isDigit 1 None))))))).

(** [Number.parseInt(matches[i]) || 0] *)
Definition parseIntOfGroup (m : MatchResult) (i : nat) : outcome Z :=
  match groups m !! i with
  | Some s => n ← parseInt s; mret (default 0 (n : option Z))
  | None => Return 0
  end.

(** A tone is the array [[r, g, b, gray]]. *)
Definition parseTone (toneString : string) : outcome (list Z) :=
  match search tonePattern toneString with
  | None => Throw (Error ("Tone parse error: " +:+ toneString))
  | Some m =>
      r ← parseIntOfGroup m 1;
      g ← parseIntOfGroup m 2;
      b ← parseIntOfGroup m 3;
      gray ← parseIntOfGroup m 4;
      mret [r; g; b; gray]
  end.

Definition isOpenBracket (a : ascii) : bool := isChar "(" a || isChar "[" a || isChar "{" a.
Definition isCloseBracket (a : ascii) : bool := isChar ")" a || isChar "]" a || isChar "}" a.
Definition isToneChar (a : ascii) : bool := isChar "-" a || isDigit a || isChar "," a || isChar " " a.

(** [/[\(\[\{]([\-\d, ]+)[\)\]\}]/g] *)
Definition toneListPattern : regex :=
  Seq (Class isOpenBracket) (Seq (Group 1 (Repeat isToneChar 1 None)) (Class isCloseBracket)).

Fixpoint mapOutcome {A B : Type} (f : A -> outcome B) (l : list A) : outcome (list B) :=
  match l with
  | [] => Return []
  | x :: l' => y ← f x; ys ← mapOutcome f l'; mret (y :: ys)
  end.

Definition parseToneList (toneListString : string) : outcome (list (list Z)) :=
  mapOutcome parseTone (matchGlobal toneListPattern toneListString).


(** ** Parameter initialisation *)

(** [String(x)] and the calls on a plugin parameter [Parameters[name]], which
    is a text, or [undefined] when the plugin manager holds no such
    parameter. *)
Definition StringOf (x : option string) : string := default "undefined" x.

Definition NumberOf (x : option string) : outcome (option Z) :=
  match x with
  | Some s => Number s
  | None => Return None
  end.

(** [f(x)] for a parser [f], whose first step is [x.match(...)]. *)
Definition onText {A : Type} (f : string -> outcome A) (x : option string) : outcome A :=
  match x with
  | Some s => f s
  | None => Throw (TypeError "Cannot read property 'match' of undefined")
  end.

Definition numberValue (n : option Z) : value :=
  match n with
  | Some z => VNum z
  | None => VNaN
  end.

Definition timeValue (t : TimeSpan) : value := VTimeSpan (_totalMinutes t).
Definition toneValue (tone : list Z) : value := VArray (VNum <$> tone).
Definition toneListValue (tones : list (list Z)) : value := VArray (toneValue <$> tones).

Definition LIGHTING_COLLECTION_LENGTH : nat := 12.

(** One turn of the loop over the lighting presets.  [LightingPresets] is an
    array used as a dictionary from keywords to tones. *)
Definition addLightingPreset (Parameters : gmap string string)
    (presets : gmap string value) (i : nat) : outcome (gmap string value) :=
  let keyword :=
    toLowerCase (StringOf (Parameters !! ("Lighting Preset " +:+ pretty i +:+ ": Keyword"))) in
  if negb (truthy (VString keyword)) then Return presets
  else
    tone ← onText parseTone (Parameters !! ("Lighting Preset " +:+ pretty i +:+ ": Tone"));
    mret (<[keyword := toneValue tone]> presets).

Fixpoint foldOutcome {A B : Type} (f : A -> B -> outcome A) (a : A) (l : list B) : outcome A :=
  match l with
  | [] => Return a
  | x :: l' => a' ← f a x; foldOutcome f a' l'
  end.

(** The section "Parameter init": [McKathlin.DayNight.Param] after the
    assignments of the script, in their order, starting from the empty
    object.  [Parameters] is what the plugin manager hands over for this
    plugin.  (When the current time variable is not set the script also
    raises an alert box, which has no part in the model.) *)
Definition initParam (Parameters : gmap string string) : outcome (gmap string value) :=
  let Param : gmap string value := ∅ in
  (* Data *)
  n ← parseInt (StringOf (Parameters !! "Current Time Variable"));
  let Param := <["CurrentTimeVariableID" := numberValue n]> Param in
  n ← parseInt (StringOf (Parameters !! "Daytime Switch"));
  let Param := <["DaytimeSwitchID" := numberValue n]> Param in
  n ← parseInt (StringOf (Parameters !! "Night Switch"));
  let Param := <["NightSwitchID" := numberValue n]> Param in
  let Param := <["OutdoorLightingKeyword" :=
    VString (toLowerCase (trim (StringOf (Parameters !! "Outdoor Lighting Keyword"))))]> Param in
  (* Element bonuses *)
  let Param := <["DaytimeElementalEffectsString" :=
    VString (StringOf (Parameters !! "Daytime Elemental Effects"))]> Param in
  let Param := <["NightElementalEffectsString" :=
    VString (StringOf (Parameters !! "Night Elemental Effects"))]> Param in
  (* Timing *)
  newGameStart ← onText parseTimeOfDay (Parameters !! "New Game Start Time");
  let Param := <["NewGameStartTime" := timeValue newGameStart]> Param in
  dawnStart ← onText parseTimeOfDay (Parameters !! "Dawn Start Time");
  let Param := <["DawnStartTime" := timeValue dawnStart]> Param in
  dayStart ← onText parseTimeOfDay (Parameters !! "Day Start Time");
  let Param := <["DayStartTime" := timeValue dayStart]> Param in
  duskStart ← onText parseTimeOfDay (Parameters !! "Dusk Start Time");
  let Param := <["DuskStartTime" := timeValue duskStart]> Param in
  nightStart ← onText parseTimeOfDay (Parameters !! "Night Start Time");
  let Param := <["NightStartTime" := timeValue nightStart]> Param in
  n ← parseInt (StringOf (Parameters !! "Minutes Per Step"));
  let Param := <["MinutesPerStep" := numberValue n]> Param in
  minutesPerTonePhase ← NumberOf (Parameters !! "Minutes Per Tone Phase");
  let Param := <["MinutesPerTonePhase" := numberValue minutesPerTonePhase]> Param in
  n ← parseInt (StringOf (Parameters !! "Tone Fade Duration"));
  let Param := <["ToneFadeDuration" := numberValue n]> Param in
  (* Tones *)
  dawnTonePhases ← onText parseToneList (Parameters !! "Dawn Tone Phases");
  let Param := <["DawnTonePhases" := toneListValue dawnTonePhases]> Param in
  daylightTone ← onText parseTone (Parameters !! "Daylight Tone");
  let Param := <["DaylightTone" := toneValue daylightTone]> Param in
  duskTonePhases ← onText parseToneList (Parameters !! "Dusk Tone Phases");
  let Param := <["DuskTonePhases" := toneListValue duskTonePhases]> Param in
  nightTone ← onText parseTone (Parameters !! "Night Tone");
  let Param := <["NightTone" := toneValue nightTone]> Param in
  (* Timing (derived): a TimeSpan plus a number is a number *)
  let endTime (start : TimeSpan) (phases : list (list Z)) : option Z :=
    (fun m => _totalMinutes start + m * Z.of_nat (length phases)) <$> minutesPerTonePhase in
  let Param := <["DawnEndTime" := numberValue (endTime dawnStart dawnTonePhases)]> Param in
  let Param := <["DuskEndTime" := numberValue (endTime duskStart duskTonePhases)]> Param in
  (* Simple Lighting Presets *)
  let Param := <["LIGHTING_COLLECTION_LENGTH" := VNum (Z.of_nat LIGHTING_COLLECTION_LENGTH)]> Param in
  presets ← foldOutcome (addLightingPreset Parameters) ∅ (seq 1 LIGHTING_COLLECTION_LENGTH);
  mret (<["LightingPresets" := VObject presets]> Param).

(** The name space [McKathlin] once the script has run: the data properties
    of [McKathlin.DayNight] and of [McKathlin.DayNightCycle] (a [TimeSpan]
    built without arguments, with its flag [_switching]).  Properties that
    hold functions are the definitions of this file. *)
Definition DayNightObject (Parameters : gmap string string) (Param : gmap string value)
    : gmap string value :=
  <["Param" := VObject Param]>
  (<["Parameters" := VObject (VString <$> Parameters)]>
  (<["MINUTES_PER_DAY" := VNum MINUTES_PER_DAY]>
  (<["HOURS_PER_DAY" := VNum HOURS_PER_DAY]>
  (<["MINUTES_PER_HOUR" := VNum MINUTES_PER_HOUR]> ∅)))).

Definition nameSpace (DayNight DayNightCycle : gmap string value) : gmap string value :=
  <["DayNightCycle" := VObject DayNightCycle]> (<["DayNight" := VObject DayNight]> ∅).

Definition loadPlugin (Parameters : gmap string string) : outcome (gmap string value) :=
  Param ← initParam Parameters;
  let DayNightCycle : gmap string value :=
    <["_switching" := VBool false]>
    (<["_totalMinutes" := VNum (_totalMinutes (initialize None None None))]> ∅) in
  mret (nameSpace (DayNightObject Parameters Param) DayNightCycle).

(** A name space as the script leaves it for the plugin parameters
    [Parameters], whatever [McKathlin.DayNightCycle] has been assigned
    since. *)
Definition installed (Parameters : gmap string string) (McK : gmap string value) : Prop :=
  exists Param DayNightCycle,
    initParam Parameters = Return Param /\
    McK = nameSpace (DayNightObject Parameters Param) DayNightCycle.

(** The names of the properties that "Parameter init" assigns, the last
    first. *)
Definition assignedNames : list string :=
  [ "LightingPresets"; "LIGHTING_COLLECTION_LENGTH"; "DuskEndTime"; "DawnEndTime";
    "NightTone"; "DuskTonePhases"; "DaylightTone"; "DawnTonePhases";
    "ToneFadeDuration"; "MinutesPerTonePhase"; "MinutesPerStep";
    "NightStartTime"; "DuskStartTime"; "DayStartTime"; "DawnStartTime";
    "NewGameStartTime"; "NightElementalEffectsString";
    "DaytimeElementalEffectsString"; "OutdoorLightingKeyword";
    "NightSwitchID"; "DaytimeSwitchID"; "CurrentTimeVariableID" ].

(** The outdoor lighting keyword that "Parameter init" stores. *)
Definition outdoorKeyword (Parameters : gmap string string) : string :=
  toLowerCase (trim (StringOf (Parameters !! "Outdoor Lighting Keyword"))).

(** The default values of the plugin parameters, from the plugin header. *)
Definition defaultParameters : gmap string string :=
  list_to_map [
    ("Current Time Variable", "");
    ("Daytime Switch", "0");
    ("Night Switch", "0");
    ("Outdoor Lighting Keyword", "Outside");
    ("New Game Start Time", "8:00 AM");
    ("Dawn Start Time", "6:00 AM");
    ("Day Start Time", "6:00 AM");
    ("Dusk Start Time", "6:00 PM");
    ("Night Start Time", "8:00 PM");
    ("Minutes Per Step", "5");
    ("Minutes Per Tone Phase", "30");
    ("Tone Fade Duration", "60");
    ("Dawn Tone Phases", "(-68, -68, -14, 41); (-68, -68, -27, 14); (-54, -54, -27, 0); (-27, -27, -14, 0)");
    ("Daylight Tone", "(0, 0, 0, 0)");
    ("Dusk Tone Phases", "(27, -14, -14, 0); (54, -27, -27, 0); (41, -41, -27, 14); (-14, -54, -14, 41)");
    ("Night Tone", "(-68, -68, 0, 68)");
    ("Default Lighting Keyword", "Outside");
    ("Lighting Preset 1: Keyword", "Bright");
    ("Lighting Preset 1: Tone", "(0, 0, 0, 0)");
    ("Lighting Preset 2: Keyword", "Fire");
    ("Lighting Preset 2: Tone", "(-16, -70, -100, 100)");
    ("Lighting Preset 3: Keyword", "Blue");
    ("Lighting Preset 3: Tone", "(-68, -68, 0, 68)");
    ("Lighting Preset 4: Keyword", "Dark");
    ("Lighting Preset 4: Tone", "(-68, -68, -68, 0)");
    ("Lighting Preset 5: Keyword", "VeryDark");
    ("Lighting Preset 5: Tone", "(-100, -100, -100, 100)");
    ("Lighting Preset 6: Keyword", "Black");
    ("Lighting Preset 6: Tone", "(-100, -100, -100, 100)");
    ("Lighting Preset 7: Keyword", "Gold");
    ("Lighting Preset 7: Tone", "(34, 0, -90, 100)");
    ("Lighting Preset 8: Keyword", "Swamp");
    ("Lighting Preset 8: Tone", "(-34, 0, -68, 100)");
    ("Lighting Preset 9: Keyword", "");
    ("Lighting Preset 9: Tone", "(0, 0, 0, 0)");
    ("Lighting Preset 10: Keyword", "");
    ("Lighting Preset 10: Tone", "(0, 0, 0, 0)");
    ("Lighting Preset 11: Keyword", "");
    ("Lighting Preset 11: Tone", "(0, 0, 0, 0)");
    ("Lighting Preset 12: Keyword", "");
    ("Lighting Preset 12: Tone", "(0, 0, 0, 0)")
  ].

(** ** Day-Night timekeeping *)

(** [McKathlin.DayNight.<name>] and [McKathlin.DayNight.Param.<name>], read
    from the name space [McK]. *)
Definition DayNight_get (McK : gmap string value) (name : string) : outcome value :=
  dayNight ← get (VObject McK) "DayNight";
  get dayNight name.

Definition Param_get (McK : gmap string value) (name : string) : outcome value :=
  param ← DayNight_get McK "Param";
  get param name.

(** [TimeSpan.prototype.isDaytime]; the right operand of [&&] is evaluated
    only when the left one holds. *)
Definition isDaytime {O} `{TotalMinutesGet O} (McK : gmap string value) (this : O)
    : outcome bool :=
  let timeOfDay := getMinutesOfDay this in
  dayStart ← Param_get McK "DayStartTimeAsMinutes";
  afterStart ← js_ge timeOfDay dayStart;
  if (afterStart : bool) then
    nightStart ← Param_get McK "NightStartTimeAsMinutes";
    js_lt timeOfDay nightStart
  else mret false.

Definition isNight {O} `{TotalMinutesGet O} (McK : gmap string value) (this : O)
    : outcome bool :=
  day ← isDaytime McK this; mret (negb day).

(** The state the controller works on: the plugin's name space, the
    engine's persisted time [$gameSystem.totalMinutes], the writes that
    reached the engine's own [Game_Switches.setValue] and
    [Game_Variables.setValue] (latest first), and the number of calls of
    [$gameMap.onTimeChanged]. *)
Record World : Type := {
  McKathlin : gmap string value;
  gameSystem_totalMinutes : Z;
  gameSwitches : list (value * bool);
  gameVariables : list (value * Z);
  timeChanged : nat
}.

(** The accessor of [McKathlin.DayNightCycle] reads the persisted time. *)
#[global] Instance DayNightCycle_get : TotalMinutesGet World := gameSystem_totalMinutes.

(** [this.<name> = v] inside a method of [McKathlin.DayNightCycle]. *)
Definition DayNightCycle_assign (name : string) (v : value) (w : World) : World :=
  let cycle := match McKathlin w !! "DayNightCycle" with
               | Some (VObject o) => o
               | _ => ∅
               end in
  {| McKathlin := <["DayNightCycle" := VObject (<[name := v]> cycle)]> (McKathlin w);
     gameSystem_totalMinutes := gameSystem_totalMinutes w;
     gameSwitches := gameSwitches w;
     gameVariables := gameVariables w;
     timeChanged := timeChanged w |}.

(** The engine's own setters, and the notification of the map. *)
Definition engine_setSwitch (switchId : value) (v : bool) (w : World) : World :=
  {| McKathlin := McKathlin w;
     gameSystem_totalMinutes := gameSystem_totalMinutes w;
     gameSwitches := (switchId, v) :: gameSwitches w;
     gameVariables := gameVariables w;
     timeChanged := timeChanged w |}.

Definition Game_Variables_setValue (variableId : value) (v : Z) (w : World) : World :=
  {| McKathlin := McKathlin w;
     gameSystem_totalMinutes := gameSystem_totalMinutes w;
     gameSwitches := gameSwitches w;
     gameVariables := (variableId, v) :: gameVariables w;
     timeChanged := timeChanged w |}.

Definition onTimeChanged (w : World) : World :=
  {| McKathlin := McKathlin w;
     gameSystem_totalMinutes := gameSystem_totalMinutes w;
     gameSwitches := gameSwitches w;
     gameVariables := gameVariables w;
     timeChanged := S (timeChanged w) |}.

Definition store_totalMinutes (minutes : Z) (w : World) : World :=
  {| McKathlin := McKathlin w;
     gameSystem_totalMinutes := minutes;
     gameSwitches := gameSwitches w;
     gameVariables := gameVariables w;
     timeChanged := timeChanged w |}.

Definition reservedMessage (switchId : string) : string :=
  "Switch " +:+ switchId +:+
  " is reserved for use by McKathlin.DayNight plugin," +:+
  " and should not be set outside of it.".

(** The protection wrapped around [Game_Switches.prototype.setValue]. *)
Definition Game_Switches_setValue (switchId : value) (v : bool) (w : World)
    : outcome World :=
  let McK := McKathlin w in
  positive ← js_positive switchId;
  unguarded ←
    (if (positive : bool) then
       switching ← DayNight_get McK "_switching";
       mret (negb (truthy (switching : value)))
     else mret false);
  _ ← (if (unguarded : bool) then
         param ← get (VObject McK) "Param";
         daytimeId ← get param "DaytimeSwitchID";
         isDaytimeSwitch ← js_eq switchId daytimeId;
         reserved ←
           (if (isDaytimeSwitch : bool) then mret true
            else nightId ← get param "NightSwitchID"; js_eq switchId nightId);
         if (reserved : bool) then
           text ← messageText switchId;
           Throw (Error (reservedMessage text))
         else mret tt
       else mret tt);
  mret (engine_setSwitch switchId v w).

(** Update all time-based variables and switches. *)
Definition updateTime (w : World) : outcome World :=
  let McK := McKathlin w in
  isDay ← isDaytime McK w;
  daytimeSwitch ← Param_get McK "DaytimeSwitch";
  w1 ← Game_Switches_setValue daytimeSwitch isDay w;
  nightSwitch ← Param_get McK "NightSwitch";
  w2 ← Game_Switches_setValue nightSwitch (negb isDay) w1;
  daysPassed ← Param_get McK "DaysPassedVariable";
  let w3 := Game_Variables_setValue daysPassed (getDays w2) w2 in
  currentHour ← Param_get McK "CurrentHourVariable";
  let w4 := Game_Variables_setValue currentHour (getHours w3) w3 in
  currentMinute ← Param_get McK "CurrentMinuteVariable";
  mret (Game_Variables_setValue currentMinute (getMinutes w4) w4).

Definition changeTimeTo (minutes : Z) (w : World) : outcome World :=
  let w := DayNightCycle_assign "_switching" (VBool true) w in
  let w := store_totalMinutes minutes w in
  w ← updateTime w;
  let w := DayNightCycle_assign "_switching" (VBool false) w in
  mret (onTimeChanged w).

(** Assigning [McKathlin.DayNightCycle.totalMinutes] runs [changeTimeTo]. *)
#[global] Instance DayNightCycle_set : TotalMinutesSet World := changeTimeTo.

(** The third argument of [new McKathlin.TimeSpan(0, 0, x)] for a value [x]
    read from an object: falsy values are replaced by 0, numbers are added as
    they are, [true] counts 1 and a [TimeSpan] its [valueOf]; a text, an
    array or a plain object would be concatenated as text. *)
Definition minutesArgument (x : value) : outcome (option Z) :=
  if negb (truthy x) then Return None
  else match x with
       | VString _ | VArray _ | VObject _ => Unmodelled
       | _ => ToNumber x
       end.

Definition reset (w : World) : outcome World :=
  w1 ← setTotalMinutes 0 w;
  start ← Param_get (McKathlin w1) "NewGameStartTimeAsMinutes";
  minutes ← minutesArgument start;
  setForwardTo (initialize (Some 0) (Some 0) minutes) w1.

(** ** Lighting application and tone-finding *)

Definition getOutsideTone {O} `{TotalMinutesGet O} (McK : gmap string value) (this : O)
    : outcome value :=
  let time := getMinutesOfDay this in
  dawnStart ← Param_get McK "DawnStartTimeAsMinutes";
  beforeDawn ← js_lt time dawnStart;
  if (beforeDawn : bool) then
    (* night, between midnight and dawn *)
    Param_get McK "NightTone"
  else
    dawnEnd ← Param_get McK "DawnEndTimeAsMinutes";
    beforeDawnEnd ← js_lt time dawnEnd;
    if (beforeDawnEnd : bool) then
      (* dawn *)
      dawnStart ← Param_get McK "DawnStartTimeAsMinutes";
      perPhase ← Param_get McK "MinutesPerTonePhase";
      phase ← js_floorDiv time dawnStart perPhase;
      phases ← Param_get McK "DawnTonePhases";
      index phases phase
    else
      duskStart ← Param_get McK "DuskStartTimeAsMinutes";
      beforeDusk ← js_lt time duskStart;
      if (beforeDusk : bool) then
        (* daytime light is after dawn and before dusk *)
        Param_get McK "DaylightTone"
      else
        duskEnd ← Param_get McK "DuskEndTimeAsMinutes";
        beforeDuskEnd ← js_lt time duskEnd;
        if (beforeDuskEnd : bool) then
          duskStart ← Param_get McK "DuskStartTimeAsMinutes";
          perPhase ← Param_get McK "MinutesPerTonePhase";
          phase ← js_floorDiv time duskStart perPhase;
          phases ← Param_get McK "DuskTonePhases";
          index phases phase
        else
          (* night, between dusk and midnight *)
          Param_get McK "NightTone".

Definition getToneByKeyword {O} `{TotalMinutesGet O} (McK : gmap string value)
    (keyword : value) (this : O) : outcome value :=
  tone ←
    (if truthy keyword then
       match keyword with
       | VString text =>
           let keyword := toLowerCase text in
           outdoor ← Param_get McK "OutdoorLightingKeyword";
           isOutdoor ← js_eq (VString keyword) outdoor;
           if (isOutdoor : bool) then getOutsideTone McK this
           else
             presets ← Param_get McK "SimpleLightingPresets";
             preset ← get presets keyword;
             if truthy (preset : value) then get preset "tone" else mret VNull
       | _ => Throw (TypeError "keyword.toLowerCase is not a function")
       end
     else mret VNull);
  if negb (truthy (tone : value)) then DayNight_get McK "DEFAULT_TONE" else mret tone.

(** The world of a new game: the name space as the script leaves it, the
    time at [minutes], nothing written yet. *)
Definition newWorld (McK : gmap string value) (minutes : Z) : World :=
  {| McKathlin := McK; gameSystem_totalMinutes := minutes;
     gameSwitches := []; gameVariables := []; timeChanged := 0 |}.


(** The plugin parameters with switch 5 for daytime and switch 6 for night. *)
Definition switchParameters : gmap string string :=
  <["Daytime Switch" := "5"]> (<["Night Switch" := "6"]> defaultParameters).

(** The name spaces that the script leaves for these two sets of plugin
    parameters. *)
Definition defaultNameSpace : gmap string value :=
  Eval vm_compute in
    match loadPlugin defaultParameters with
    | Return McK => McK
    | _ => ∅
    end.

Definition switchNameSpace : gmap string value :=
  Eval vm_compute in
    match loadPlugin switchParameters with
    | Return McK => McK
    | _ => ∅
    end.

(** ** The patterns in words *)

(** An [H:MM] or [HH:MM] pattern somewhere in the text: one or two digits, a
    colon, two digits. *)
Definition hasClockPattern (s : string) : Prop :=
  exists before h mm rest,
    s = before +:+ h +:+ ":" +:+ mm +:+ rest /\
    allDigits h = true /\ (String.length h = 1 \/ String.length h = 2)%nat /\
    allDigits mm = true /\ String.length mm = 2%nat.

(** A run of at least one digit, with an optional minus sign before it. *)
Definition isUnsignedText (t : string) : Prop :=
  allDigits t = true /\ t <> EmptyString.

Definition isSignedText (t : string) : Prop :=
  isUnsignedText t \/ exists d, t = String "-" d /\ isUnsignedText d.

Definition isSeparatorText (t : string) : Prop :=
  allOf isSeparator t = true /\ t <> EmptyString.

(** The four-integer pattern somewhere in the text: three optionally signed
    integers and an unsigned one, with commas or spaces between them. *)
Definition hasTonePattern (s : string) : Prop :=
  exists before r sep1 g sep2 b sep3 gray rest,
    s = before +:+ r +:+ sep1 +:+ g +:+ sep2 +:+ b +:+ sep3 +:+ gray +:+ rest /\
    isSignedText r /\ isSeparatorText sep1 /\
    isSignedText g /\ isSeparatorText sep2 /\
    isSignedText b /\ isSeparatorText sep3 /\
    isUnsignedText gray.

(** [Number.parseInt] on a signed integer text. *)
Definition signedValue (t : string) : Z :=
  match t with
  | String a d => if isChar "-" a then - digitsValue 0 d else digitsValue 0 t
  | EmptyString => 0
  end.

(** A clock pattern starts the text: one or two digits, a colon, two
    digits. *)
Definition clockStartsAt (s : string) : Prop :=
  exists h mm rest,
    s = h +:+ ":" +:+ mm +:+ rest /\
    allDigits h = true /\ (String.length h = 1 \/ String.length h = 2)%nat /\
    allDigits mm = true /\ String.length mm = 2%nat.

(** No clock pattern starts inside [before] when [tail] follows it: the
    first clock pattern of [before +:+ tail], if any, starts in [tail]. *)
Definition noClockInside (before tail : string) : Prop :=
  forall b1 b2, before = b1 +:+ b2 -> b2 <> "" -> ~ clockStartsAt (b2 +:+ tail).

(** The meridiem letter right after a clock time, with at most one space
    between them. *)
Definition markerOf (tail : string) : option ascii :=
  match tail with
  | EmptyString => None
  | String a rest =>
      if isMeridiemLetter a then Some a
      else if isChar " " a then
        match rest with
        | String b _ => if isMeridiemLetter b then Some b else None
        | EmptyString => None
        end
      else None
  end.

(** The hour of the day for the hour field [H] and a marker: 12 AM is 0,
    12 PM is 12, other PM hours get 12 added, anything else is as written. *)
Definition markedHours (H : Z) (marker : option ascii) : Z :=
  match marker with
  | None => H
  | Some a =>
      if isLetterCI "p" "P" a then (if H =? 12 then 12 else H + 12)
      else (if H =? 12 then 0 else H)
  end.

(** ** The rest of the TimeSpan class *)

(** [s.padStart(n, c)] for a filler [c] of one character. *)
Fixpoint filler (n : nat) (c : ascii) : string :=
  match n with
  | O => EmptyString
  | S n' => String c (filler n' c)
  end.

Definition padStart (n : nat) (c : ascii) (s : string) : string :=
  filler (n - String.length s) c +:+ s.

(** [TimeSpan.prototype.toString]; the text of an integer is its decimal
    notation, with a minus sign when negative. *)
Definition toString {O} `{TotalMinutesGet O} (this : O) : string :=
  let hh := padStart 2 "0" (pretty (getHours this)) in
  let mm := padStart 2 "0" (pretty (getMinutes this)) in
  "" +:+ hh +:+ ":" +:+ mm.

(** [add] with a [TimeSpan] as its argument. *)
Definition add {O T} `{TotalMinutesGet O} `{TotalMinutesSet O} `{TotalMinutesGet T}
    (timeSpan : T) (this : O) : outcome O :=
  set_totalMinutes (totalMinutes this + totalMinutes timeSpan) this.

Definition plus {O T} `{TotalMinutesGet O} `{TotalMinutesGet T}
    (this : O) (timeSpan : T) : TimeSpan :=
  let minuteSum := totalMinutes this + totalMinutes timeSpan in
  initialize (Some 0) (Some 0) (Some minuteSum).

(** ** The wrappers around the engine *)




(** What [Game_Map.prototype.applyLightingPreset] assigns on the map, and the
    calls of [$gameScreen.startTint] (latest first). *)
Record Lighting : Type := {
  lightingType : value;
  isOutside : bool;
  mapTone : value;
  startTint : list (value * Z)
}.

(** [applyLightingPreset(presetName, duration=0)]; [None] is a duration left
    out. *)
Definition applyLightingPreset {O} `{TotalMinutesGet O} (McK : gmap string value)
    (cycle : O) (presetName : value) (duration : option Z) (this : Lighting)
    : outcome Lighting :=
  let duration := default 0 duration in
  outdoor ← Param_get McK "OutdoorLightingKeyword";
  outside ← js_eq presetName outdoor;
  tone ← getToneByKeyword McK presetName cycle;
  mret {| lightingType := presetName;
          isOutside := outside;
          mapTone := tone;
          startTint := (tone, duration) :: startTint this |}.

(** ** Texts and worlds in words *)

(** Some character of the text is in the class. *)
Fixpoint anyOf (p : ascii -> bool) (s : string) : bool :=
  match s with
  | EmptyString => false
  | String a s' => p a || anyOf p s'
  end.

(** Is the last character of the text a digit? *)
Fixpoint endsWithDigit (s : string) : bool :=
  match s with
  | EmptyString => false
  | String a EmptyString => isDigit a
  | String _ s' => endsWithDigit s'
  end.


(** Addition of a list of durations, one [addMinutes] call each. *)
Definition addAll {O} `{TotalMinutesGet O} `{TotalMinutesSet O}
    (durations : list Z) (this : O) : outcome O :=
  foldOutcome (fun t d => addMinutes d t) this durations.

(** Does the parsed time of [toString] equal the minute of the day? *)
Definition clockRoundTrip (m : Z) : bool :=
  match parseTimeOfDay (toString {| _totalMinutes := m |}) with
  | Return t => (_totalMinutes t =? m) && (String.length (toString {| _totalMinutes := m |}) =? 5)%nat
  | _ => false
  end.

(** The first token of a unit in a text: the digits [n], at most one space
    and the unit's letter, where [n] is a whole run of digits and nothing
    before it holds the unit's letter. *)
Definition firstToken (lower upper : ascii) (s n : string) : Prop :=
  exists pre sp a rest,
    s = pre +:+ n +:+ sp +:+ String a rest /\
    anyOf (isLetterCI lower upper) pre = false /\
    endsWithDigit pre = false /\
    isUnsignedText n /\ (sp = "" \/ sp = " ") /\
    isLetterCI lower upper a = true.

(** What a text says about one unit: 0 when the unit's letter is nowhere in
    it, the number of the unit's first token otherwise. *)
Definition unitReading (lower upper : ascii) (s : string) (v : Z) : Prop :=
  (anyOf (isLetterCI lower upper) s = false /\ v = 0) \/
  (exists n, firstToken lower upper s n /\ v = digitsValue 0 n).


(** The plugin parameters that must hold a time of day, and those that must
    hold a tone. *)
Definition timeParameters : list string :=
  ["New Game Start Time"; "Dawn Start Time"; "Day Start Time";
   "Dusk Start Time"; "Night Start Time"].

Definition toneParameters : list string := ["Daylight Tone"; "Night Tone"].

Definition toneListParameters : list string := ["Dawn Tone Phases"; "Dusk Tone Phases"].

(** * Properties *)

(** ** Texts *)

Lemma append_cons (a : ascii) (s t : string) : String a s +:+ t = String a (s +:+ t).
Proof. reflexivity. Qed.

Lemma append_empty_l (s : string) : "" +:+ s = s.
Proof. reflexivity. Qed.

Lemma append_empty_r (s : string) : s +:+ "" = s.
Proof. induction s as [|a s IH]; [reflexivity | rewrite append_cons; now f_equal]. Qed.

Lemma append_assoc (s t u : string) : s +:+ (t +:+ u) = (s +:+ t) +:+ u.
Proof. induction s as [|a s IH]; [reflexivity | rewrite !append_cons; now f_equal]. Qed.

Lemma length_append (s t : string) :
  String.length (s +:+ t) = (String.length s + String.length t)%nat.
Proof.
  induction s as [|a s IH]; [reflexivity |].
  rewrite append_cons. simpl. now f_equal.
Qed.

Lemma substring_prefix (t rest : string) :
  substring 0 (String.length t) (t +:+ rest) = t.
Proof.
  induction t as [|a t IH].
  - destruct rest; reflexivity.
  - rewrite append_cons. simpl. now f_equal.
Qed.

Lemma taken_append (t rest : string) : taken (t +:+ rest) rest = t.
Proof.
  unfold taken. rewrite length_append.
  replace (String.length t + String.length rest - String.length rest)%nat
    with (String.length t) by lia.
  apply substring_prefix.
Qed.

Lemma allOf_append p (s t : string) :
  allOf p (s +:+ t) = allOf p s && allOf p t.
Proof.
  induction s as [|a s IH]; [reflexivity |].
  rewrite append_cons. simpl. rewrite IH. now rewrite andb_assoc.
Qed.

(** ** The matcher finds a match exactly when there is one *)

Lemma repeatClass_sound {R} p (k : string -> option R) s : forall min max x,
  repeatClass p min max s k = Some x ->
  exists t rest, s = t +:+ rest /\ allOf p t = true /\
    (min <= String.length t)%nat /\
    (forall m, max = Some m -> (String.length t <= m)%nat) /\
    k rest = Some x.
Proof.
  induction s as [|a s IH]; intros min max x Hrun.
  - simpl in Hrun. destruct min; [|discriminate].
    exists EmptyString, EmptyString. simpl. repeat split; auto with lia.
  - simpl in Hrun.
    assert (Hstop : match min with O => k (String a s) | S _ => None end = Some x ->
      exists t rest, String a s = t +:+ rest /\ allOf p t = true /\
        (min <= String.length t)%nat /\
        (forall m, max = Some m -> (String.length t <= m)%nat) /\ k rest = Some x).
    { destruct min; [|discriminate]. intros Hk.
      exists EmptyString, (String a s). simpl. repeat split; auto with lia. }
    destruct (p a) eqn:Hpa; simpl in Hrun; [|auto].
    destruct max as [[|m]|]; simpl in Hrun; auto.
    + destruct (repeatClass p (Nat.pred min) (Some m) s k) as [y|] eqn:Hrec; auto.
      inversion Hrun; subst y. apply IH in Hrec as (t & rest & -> & Hall & Hmin & Hmax & Hk).
      exists (String a t), rest. simpl. rewrite Hpa, Hall. repeat split; auto; try lia.
      intros m' [= <-]. specialize (Hmax m eq_refl). lia.
    + destruct (repeatClass p (Nat.pred min) None s k) as [y|] eqn:Hrec; auto.
      inversion Hrun; subst y. apply IH in Hrec as (t & rest & -> & Hall & Hmin & Hmax & Hk).
      exists (String a t), rest. simpl. rewrite Hpa, Hall. repeat split; auto; try lia.
      intros m' [=].
Qed.

Lemma repeatClass_complete {R} p (k : string -> option R) rest t : forall min max,
  allOf p t = true -> (min <= String.length t)%nat ->
  (forall m, max = Some m -> (String.length t <= m)%nat) ->
  is_Some (k rest) ->
  is_Some (repeatClass p min max (t +:+ rest) k).
Proof.
  induction t as [|a t IH]; intros min max Hall Hmin Hmax Hk.
  - simpl in *. assert (min = O) as -> by lia.
    destruct rest as [|b rest]; simpl; [assumption|].
    destruct (p b && _); [|assumption].
    destruct (repeatClass _ _ _ _ _); [eauto | assumption].
  - simpl in *. apply andb_true_iff in Hall as [Hpa Hall]. rewrite Hpa. simpl.
    assert (Hm : match max with Some O => false | _ => true end = true).
    { destruct max as [[|m]|]; auto. specialize (Hmax O eq_refl). lia. }
    rewrite Hm.
    destruct (IH (Nat.pred min) (Nat.pred <$> max)) as [y Hy]; auto; try lia.
    { intros m Heq. destruct max as [m'|]; [|discriminate].
      simpl in Heq. injection Heq as <-. specialize (Hmax m' eq_refl). lia. }
    rewrite Hy. eauto.
Qed.

Lemma run_sound {R} (r : regex) : forall s c (k : string -> captures -> option R) x,
  run r s c k = Some x ->
  exists t rest c', s = t +:+ rest /\ matches r t c c' /\ k rest c' = Some x.
Proof.
  induction r as [p | r1 IH1 r2 IH2 | r1 IH1 | p min max | i r1 IH1];
    intros s c k x Hrun; simpl in Hrun.
  - destruct s as [|a s]; [discriminate|].
    destruct (p a) eqn:Hpa; [|discriminate].
    exists (String a ""), s, c. repeat split; auto using matches_Class.
  - apply IH1 in Hrun as (t1 & rest1 & c1 & -> & Hm1 & Hrun).
    apply IH2 in Hrun as (t2 & rest2 & c2 & -> & Hm2 & Hk).
    exists (t1 +:+ t2), rest2, c2. rewrite <- append_assoc.
    repeat split; eauto using matches_Seq.
  - destruct (run r1 s c k) as [y|] eqn:Hrec.
    + inversion Hrun; subst y.
      apply IH1 in Hrec as (t & rest & c' & -> & Hm & Hk).
      exists t, rest, c'. repeat split; auto using matches_Opt_some.
    + exists EmptyString, s, c. repeat split; auto using matches_Opt_none.
  - apply repeatClass_sound in Hrun as (t & rest & -> & Hall & Hmin & Hmax & Hk).
    exists t, rest, c. repeat split; auto using matches_Repeat.
  - apply IH1 in Hrun as (t & rest & c' & -> & Hm & Hk).
    rewrite taken_append in Hk.
    exists t, rest, (<[i := t]> c'). repeat split; auto using matches_Group.
Qed.

Lemma run_complete {R} (r : regex) t c c' :
  matches r t c c' ->
  forall rest (k : string -> captures -> option R),
  is_Some (k rest c') -> is_Some (run r (t +:+ rest) c k).
Proof.
  induction 1 as [p a c Hpa | r1 r2 t1 t2 c c1 c2 _ IH1 _ IH2 | r t c c' _ IH
                 | r c | p min max t c Hall Hmin Hmax | i r t c c' _ IH];
    intros rest k Hk; simpl.
  - now rewrite Hpa.
  - rewrite <- append_assoc. apply IH1, IH2, Hk.
  - destruct (IH rest k Hk) as [y ->]. eauto.
  - rewrite append_empty_l. destruct (run r rest c k); [eauto | assumption].
  - now apply repeatClass_complete.
  - apply IH. now rewrite taken_append.
Qed.

Lemma matchHere_sound r s m :
  matchHere r s = Some m ->
  s = matched m +:+ after m /\ matches r (matched m) ∅ (groups m).
Proof.
  unfold matchHere. intros H.
  apply run_sound in H as (t & rest & c' & -> & Hm & [= <-]). simpl.
  now rewrite taken_append.
Qed.

Lemma search_sound r s : forall m,
  search r s = Some m ->
  exists before, s = before +:+ matched m +:+ after m /\
    matches r (matched m) ∅ (groups m).
Proof.
  induction s as [|a s IH]; intros m H; simpl in H.
  - destruct (matchHere r "") as [m'|] eqn:Hm; [|discriminate].
    inversion H; subst m'. apply matchHere_sound in Hm as [Hs Hm].
    exists EmptyString. auto.
  - destruct (matchHere r (String a s)) as [m'|] eqn:Hm.
    + inversion H; subst m'. apply matchHere_sound in Hm as [Hs Hm].
      exists EmptyString. auto.
    + apply IH in H as (before & -> & Hmatch).
      exists (String a before). auto.
Qed.

Lemma search_complete r before t rest c :
  matches r t ∅ c -> is_Some (search r (before +:+ t +:+ rest)).
Proof.
  intros Hm.
  assert (Hhere : is_Some (matchHere r (t +:+ rest))).
  { unfold matchHere. eapply run_complete; eauto. }
  induction before as [|a before IH].
  - rewrite append_empty_l. destruct Hhere as [m Hhere].
    destruct (t +:+ rest); simpl; rewrite Hhere; eauto.
  - rewrite append_cons. simpl.
    destruct (matchHere r (String a _)); [eauto | assumption].
Qed.

(** A text has a match exactly when the search finds one. *)
Lemma search_None_iff r s : search r s = None <-> ~ occursIn r s.
Proof.
  split.
  - intros Hnone (before & t & rest & c & -> & Hm).
    destruct (search_complete r before t rest c Hm) as [m Hs]. congruence.
  - intros Hno. destruct (search r s) as [m|] eqn:Hs; [|reflexivity].
    exfalso. apply Hno. apply search_sound in Hs as (before & Hs & Hm).
    exists before, (matched m), (after m), (groups m). auto.
Qed.

(** ** Number conversions on the texts the groups capture *)

Lemma isDigit_not_space a : isDigit a = true -> isWhiteSpace a = false.
Proof.
  unfold isDigit, isWhiteSpace. intros H.
  apply andb_true_iff in H as [H1 H2].
  apply N.leb_le in H1. apply N.leb_le in H2.
  apply orb_false_iff. split.
  - apply andb_false_iff. right. apply N.leb_gt. lia.
  - apply N.eqb_neq. lia.
Qed.

Lemma isDigit_not_char a c :
  isDigit c = false -> isDigit a = true -> isChar c a = false.
Proof.
  intros Hc Ha. unfold isChar. destruct (Ascii.eqb_spec a c); [congruence | reflexivity].
Qed.

Lemma allDigits_cons a d :
  allDigits (String a d) = true <-> isDigit a = true /\ allDigits d = true.
Proof. unfold allDigits. simpl. apply andb_true_iff. Qed.

Lemma trimEnd_digits d : allDigits d = true -> trimEnd d = d.
Proof.
  induction d as [|a d IH]; [reflexivity|].
  intros [Ha Hd]%allDigits_cons. simpl.
  rewrite (IH Hd). destruct d; [|reflexivity].
  now rewrite (isDigit_not_space a Ha).
Qed.

Lemma trim_digits d : allDigits d = true -> trim d = d.
Proof.
  intros H. unfold trim.
  assert (trimStart d = d) as ->.
  { destruct d as [|a d]; [reflexivity|]. simpl.
    apply allDigits_cons in H as [Ha _].
    now rewrite (isDigit_not_space a Ha). }
  now apply trimEnd_digits.
Qed.

Lemma digitValue_bounds a : isDigit a = true -> 0 <= digitValue a <= 9.
Proof.
  unfold isDigit, digitValue. intros H.
  apply andb_true_iff in H as [H1 H2].
  apply N.leb_le in H1. apply N.leb_le in H2. lia.
Qed.

Lemma digitsValue_nonneg d : forall acc,
  allDigits d = true -> 0 <= acc -> 0 <= digitsValue acc d.
Proof.
  induction d as [|a d IH]; intros acc H Hacc; [assumption|].
  apply allDigits_cons in H as [Ha Hd].
  simpl. apply IH; [assumption|].
  pose proof (digitValue_bounds a Ha). lia.
Qed.

Lemma Number_digits d :
  isUnsignedText d -> Number d = Return (Some (digitsValue 0 d)).
Proof.
  intros [Hd Hne]. unfold Number. rewrite (trim_digits d Hd).
  destruct d as [|a d]; [congruence|].
  unfold signedDigits.
  pose proof Hd as [Ha _]%allDigits_cons.
  rewrite (isDigit_not_char a "-" eq_refl Ha), (isDigit_not_char a "+" eq_refl Ha).
  simpl. now rewrite Hd.
Qed.

Lemma spanDigits_digits d : allDigits d = true -> spanDigits d = (d, EmptyString).
Proof.
  induction d as [|a d IH]; [reflexivity|].
  intros [Ha Hd]%allDigits_cons. simpl.
  now rewrite Ha, (IH Hd).
Qed.

Lemma hasHexPrefix_digits d : allDigits d = true -> hasHexPrefix d = false.
Proof.
  destruct d as [|a [|b d]]; try reflexivity.
  intros [Ha [Hb _]%allDigits_cons]%allDigits_cons. simpl.
  rewrite (isDigit_not_char b "x" eq_refl Hb), (isDigit_not_char b "X" eq_refl Hb).
  simpl. apply andb_false_r.
Qed.

Lemma parseDigitsPrefix_digits d :
  isUnsignedText d -> parseDigitsPrefix d = Return (Some (digitsValue 0 d)).
Proof.
  intros [Hd Hne]. unfold parseDigitsPrefix.
  rewrite (hasHexPrefix_digits d Hd), (spanDigits_digits d Hd).
  destruct d; [congruence | reflexivity].
Qed.

Lemma parseInt_unsigned d :
  isUnsignedText d -> parseInt d = Return (Some (digitsValue 0 d)).
Proof.
  intros Hd. pose proof Hd as [Hall Hne]. unfold parseInt.
  destruct d as [|a d]; [congruence|].
  pose proof Hall as [Ha _]%allDigits_cons.
  simpl. rewrite (isDigit_not_space a Ha).
  rewrite (isDigit_not_char a "-" eq_refl Ha), (isDigit_not_char a "+" eq_refl Ha).
  now apply parseDigitsPrefix_digits.
Qed.

Lemma parseInt_signed t :
  isSignedText t -> parseInt t = Return (Some (signedValue t)).
Proof.
  intros [Hd | (d & -> & Hd)].
  - rewrite (parseInt_unsigned t Hd). destruct Hd as [Hall Hne].
    destruct t as [|a d]; [congruence|].
    pose proof Hall as [Ha _]%allDigits_cons.
    simpl. now rewrite (isDigit_not_char a "-" eq_refl Ha).
  - unfold parseInt. simpl. now rewrite (parseDigitsPrefix_digits d Hd).
Qed.

(** ** The time-of-day pattern *)

Ltac invert_matches :=
  repeat match goal with
  | H : matches (Seq _ _) _ _ _ |- _ => inversion H; subst; clear H
  | H : matches (Group _ _) _ _ _ |- _ => inversion H; subst; clear H
  | H : matches (Class _) _ _ _ |- _ => inversion H; subst; clear H
  | H : matches (Repeat _ _ _) _ _ _ |- _ => inversion H; subst; clear H
  | H : matches (Opt _) _ _ _ |- _ => inversion H; subst; clear H
  end.

Lemma isChar_eq c a : isChar c a = true -> a = c.
Proof. unfold isChar. now intros H%Ascii.eqb_eq. Qed.

(** What a match of the time-of-day pattern consists of, and what its groups
    hold. *)
Lemma timeOfDay_matches_inv t c :
  matches timeOfDayPattern t ∅ c ->
  exists h mm tail,
    t = h +:+ ":" +:+ mm +:+ tail /\
    allDigits h = true /\ (String.length h = 1 \/ String.length h = 2)%nat /\
    allDigits mm = true /\ String.length mm = 2%nat /\
    c !! 1%nat = Some h /\ c !! 2%nat = Some mm /\
    (c !! 3%nat = None \/
     exists a, c !! 3%nat = Some (String a "") /\ isMeridiemLetter a = true).
Proof.
  unfold timeOfDayPattern, meridiemPattern. intros H. invert_matches.
  all: match goal with
       | Hc : isChar ":" ?a = true |- _ => apply isChar_eq in Hc; subst a
       end.
  all: match goal with
       | Hh : allOf isDigit ?h = true, Hm : allOf isDigit ?mm = true,
         Hlen : (2 <= String.length ?mm)%nat |- context [?h +:+ ":" +:+ ?mm +:+ ?tail] =>
           exists h, mm, tail
       end.
  all: repeat split; try assumption; try reflexivity.
  all: try match goal with
       | H1 : (1 <= String.length ?h)%nat, H2 : forall m, Some 2%nat = Some m -> _
         |- (String.length ?h = 1 \/ _)%nat => specialize (H2 _ eq_refl); lia
       | H1 : (2 <= String.length ?h)%nat, H2 : forall m, Some 2%nat = Some m -> _
         |- (String.length ?h = 2)%nat => specialize (H2 _ eq_refl); lia
       end.
  all: try (left; reflexivity).
  all: try (right; eexists; split; [reflexivity | assumption]).
Qed.

Lemma timeOfDay_occurs_iff s : occursIn timeOfDayPattern s <-> hasClockPattern s.
Proof.
  split.
  - intros (before & t & rest & c & -> & Hm).
    apply timeOfDay_matches_inv in Hm
      as (h & mm & tail & -> & Hh & Hlh & Hmm & Hlm & _).
    exists before, h, mm, (tail +:+ rest).
    repeat split; try assumption.
    now rewrite <- !append_assoc.
  - intros (before & h & mm & rest & -> & Hh & Hlh & Hmm & Hlm).
    exists before, (h +:+ ":" +:+ mm +:+ "" +:+ ""), rest,
      (<[2%nat := mm]> (<[1%nat := h]> ∅)).
    split.
    + rewrite <- !append_assoc. reflexivity.
    + unfold timeOfDayPattern, meridiemPattern.
      apply matches_Seq with (c1 := <[1%nat := h]> ∅).
      { apply matches_Group, matches_Repeat; [assumption | lia | intros m [= <-]; lia]. }
      apply (matches_Seq _ _ ":") with (c1 := <[1%nat := h]> ∅).
      { now apply matches_Class. }
      apply matches_Seq with (c1 := <[2%nat := mm]> (<[1%nat := h]> ∅)).
      { apply matches_Group, matches_Repeat; [assumption | lia | intros m [= <-]; lia]. }
      apply (matches_Seq _ _ "" "") with (c1 := <[2%nat := mm]> (<[1%nat := h]> ∅));
        apply matches_Opt_none.
Qed.

(** The greedy repetition keeps everything it can take when what follows
    then matches. *)
Lemma repeatClass_greedy {R} p (k : string -> option R) rest x t : forall min max,
  allOf p t = true -> (min <= String.length t)%nat ->
  (forall m, max = Some m -> (String.length t <= m)%nat) ->
  match rest with
  | String b _ => p b = false \/ max = Some (String.length t)
  | EmptyString => True
  end ->
  k rest = Some x ->
  repeatClass p min max (t +:+ rest) k = Some x.
Proof.
  induction t as [|a t IH]; intros min max Hall Hmin Hmax Hstop Hk.
  - simpl in Hmin. assert (min = O) as -> by lia. rewrite append_empty_l.
    destruct rest as [|b rest]; simpl; [assumption|].
    destruct Hstop as [-> | ->]; simpl; [assumption|].
    now rewrite andb_false_r.
  - rewrite append_cons. simpl in *.
    apply andb_true_iff in Hall as [Hpa Hall]. rewrite Hpa. simpl.
    assert (Hm : match max with Some O => false | _ => true end = true).
    { destruct max as [[|m]|]; auto. specialize (Hmax O eq_refl). lia. }
    rewrite Hm.
    rewrite (IH (Nat.pred min) (Nat.pred <$> max)); auto; try lia.
    + intros m Heq. destruct max as [m'|]; [|discriminate].
      simpl in Heq. injection Heq as <-. specialize (Hmax m' eq_refl). lia.
    + destruct rest as [|b rest]; [exact I|].
      destruct Hstop as [Hb | ->]; [now left | now right].
Qed.

Lemma search_here r s m : matchHere r s = Some m -> search r s = Some m.
Proof. intros H. destruct s; simpl; now rewrite H. Qed.

Lemma taken_cons a rest : taken (String a rest) rest = String a "".
Proof. exact (taken_append (String a "") rest). Qed.

Lemma run_Class_true {R} p a s c (k : string -> captures -> option R) :
  p a = true -> run (Class p) (String a s) c k = k s c.
Proof. intros H. simpl. now rewrite H. Qed.

Lemma run_Class_false {R} p a s c (k : string -> captures -> option R) :
  p a = false -> run (Class p) (String a s) c k = None.
Proof. intros H. simpl. now rewrite H. Qed.

Lemma run_Opt_always {R} r s c (k : string -> captures -> option R) :
  run r s c k = None -> run (Opt r) s c k = k s c.
Proof. intros H. simpl. now rewrite H. Qed.

Lemma run_Opt_first {R} r s c (k : string -> captures -> option R) x :
  run r s c k = Some x -> run (Opt r) s c k = Some x.
Proof. intros H. simpl. now rewrite H. Qed.

Ltac run_step :=
  repeat first
    [ progress change (run (Seq ?r1 ?r2) ?s ?c ?k)
        with (run r1 s c (fun s1 c1 => run r2 s1 c1 k))
    | progress change (run (Group ?i ?r1) ?s ?c ?k)
        with (run r1 s c (fun s' c' => k s' (<[i := taken s s']> c')))
    | progress change (run (Repeat ?p ?min ?max) ?s ?c ?k)
        with (repeatClass p min max s (fun s' => k s' c)) ].

(** After the minutes: an optional space and a meridiem letter fill the
    third group with that letter. *)
Lemma meridiem_marker {R} (k : string -> captures -> option R) sp letter rest c :
  sp = "" \/ sp = " " -> isMeridiemLetter letter = true ->
  (forall rest' c', is_Some (k rest' c')) ->
  exists rest',
    run meridiemPattern (sp +:+ String letter rest) c k
    = k rest' (<[3%nat := String letter ""]> c).
Proof.
  intros Hsp Hletter Hk.
  assert (Hns : isChar " " letter = false).
  { unfold isMeridiemLetter, isLetterCI, isChar in *.
    destruct (Ascii.eqb_spec letter " "); [|reflexivity]. subst letter. discriminate. }
  assert (Hgroup : exists rest',
    run (Opt (Seq (Group 3 (Class isMeridiemLetter)) (Opt (Class (isLetterCI "m" "M")))))
      (String letter rest) c k = k rest' (<[3%nat := String letter ""]> c)).
  { assert (Hin : exists rest',
      run (Seq (Group 3 (Class isMeridiemLetter)) (Opt (Class (isLetterCI "m" "M"))))
        (String letter rest) c k = k rest' (<[3%nat := String letter ""]> c)).
    { run_step. rewrite run_Class_true by assumption. rewrite taken_cons.
      destruct rest as [|x rest].
      - exists EmptyString. reflexivity.
      - destruct (isLetterCI "m" "M" x) eqn:Hx.
        + exists rest. simpl. rewrite Hx.
          destruct (Hk rest (<[3%nat := String letter ""]> c)) as [y ->]. reflexivity.
        + exists (String x rest). simpl. now rewrite Hx. }
    destruct Hin as [rest' Hin]. exists rest'.
    destruct (Hk rest' (<[3%nat := String letter ""]> c)) as [y Hy].
    rewrite Hy in *. now apply run_Opt_first. }
  destruct Hgroup as [rest' Hgroup]. exists rest'.
  destruct (Hk rest' (<[3%nat := String letter ""]> c)) as [y Hy].
  unfold meridiemPattern. run_step.
  destruct Hsp as [-> | ->].
  - rewrite append_empty_l. rewrite run_Opt_always.
    + exact Hgroup.
    + now apply run_Class_false.
  - change (" " +:+ ?x) with (String " " x).
    rewrite Hy. apply run_Opt_first. rewrite run_Class_true by reflexivity.
    rewrite Hgroup. exact Hy.
Qed.

(** The match found at the start of a text that begins with a clock time and
    a meridiem letter. *)
Lemma timeOfDay_match_marker h mm sp letter rest :
  allDigits h = true -> (String.length h = 1 \/ String.length h = 2)%nat ->
  allDigits mm = true -> String.length mm = 2%nat ->
  sp = "" \/ sp = " " -> isMeridiemLetter letter = true ->
  exists m,
    search timeOfDayPattern (h +:+ ":" +:+ mm +:+ sp +:+ String letter rest) = Some m /\
    groups m !! 1%nat = Some h /\ groups m !! 2%nat = Some mm /\
    groups m !! 3%nat = Some (String letter "").
Proof.
  intros Hh Hlh Hm Hlm Hsp Hletter.
  set (s := h +:+ ":" +:+ mm +:+ sp +:+ String letter rest).
  destruct (meridiem_marker
    (fun rest0 c => Some {| matched := taken s rest0; groups := c; after := rest0 |})
    sp letter rest (<[2%nat := mm]> (<[1%nat := h]> ∅)) Hsp Hletter) as [rest' Htail].
  { intros; eauto. }
  eexists. split.
  - apply search_here. unfold matchHere, timeOfDayPattern. subst s.
    run_step.
    apply repeatClass_greedy; [assumption | lia | intros m [= <-]; lia | left; reflexivity |].
    rewrite taken_append.
    run_step. change (":" +:+ ?x) with (String ":" x).
    rewrite run_Class_true by reflexivity.
    run_step.
    apply repeatClass_greedy; [assumption | lia | intros m [= <-]; lia | |].
    { destruct (sp +:+ _); [exact I | right; now rewrite Hlm]. }
    rewrite taken_append. exact Htail.
  - simpl. repeat split; reflexivity.
Qed.

Lemma isMeridiemLetter_cases a :
  isMeridiemLetter a = true -> a = "a"%char \/ a = "A"%char \/ a = "p"%char \/ a = "P"%char.
Proof.
  unfold isMeridiemLetter, isLetterCI. intros H.
  repeat (apply orb_true_iff in H as [H | H]);
    apply Ascii.eqb_eq in H; auto.
Qed.

Lemma isUnsignedText_of_length h n :
  allDigits h = true -> String.length h = S n -> isUnsignedText h.
Proof. intros Hh Hl. split; [assumption|]. now intros ->. Qed.

(** The result of [parseTimeOfDay] from the groups of the match. *)
Lemma parseTimeOfDay_of_groups s m h mm :
  search timeOfDayPattern s = Some m ->
  groups m !! 1%nat = Some h -> groups m !! 2%nat = Some mm ->
  isUnsignedText h -> isUnsignedText mm ->
  let H := digitsValue 0 h in
  let M := digitsValue 0 mm in
  (groups m !! 3%nat = None ->
     parseTimeOfDay s = Return (initialize (Some 0) (Some H) (Some M))) /\
  (forall a, groups m !! 3%nat = Some (String a "") -> a = "p"%char \/ a = "P"%char ->
     parseTimeOfDay s
     = Return (initialize (Some 0) (Some (if H =? 12 then 12 else H + 12)) (Some M))) /\
  (forall a, groups m !! 3%nat = Some (String a "") -> a = "a"%char \/ a = "A"%char ->
     parseTimeOfDay s
     = Return (initialize (Some 0) (Some (if H =? 12 then 0 else H)) (Some M))).
Proof.
  intros Hs H1 H2 Hh Hmm H M.
  unfold parseTimeOfDay, NumberOfGroup. rewrite Hs, H1, H2.
  rewrite (Number_digits h Hh), (Number_digits mm Hmm). fold H M.
  cbn [mbind outcome_bind mret outcome_ret].
  rewrite (Z.eqb_sym 12 H).
  repeat split.
  - now intros ->.
  - intros a -> [-> | ->]; cbn; destruct (H =? 12) eqn:E; try reflexivity.
    all: try (apply Z.eqb_eq in E; now rewrite E).
    all: now rewrite Z.add_comm.
  - intros a -> [-> | ->]; cbn; destruct (H =? 12); reflexivity.
Qed.

(** A match always leads to a result. *)
Lemma parseTimeOfDay_found s m :
  search timeOfDayPattern s = Some m ->
  exists hours minutes,
    0 <= hours /\ 0 <= minutes /\
    parseTimeOfDay s = Return (initialize (Some 0) (Some hours) (Some minutes)).
Proof.
  intros Hs. pose proof Hs as (before & _ & Hm)%search_sound.
  apply timeOfDay_matches_inv in Hm
    as (h & mm & tail & _ & Hh & Hlh & Hmm & Hlm & H1 & H2 & H3).
  assert (Hhu : isUnsignedText h).
  { destruct Hlh; eapply isUnsignedText_of_length; eauto. }
  assert (Hmu : isUnsignedText mm) by (eapply isUnsignedText_of_length; eauto).
  destruct (parseTimeOfDay_of_groups s m h mm Hs H1 H2 Hhu Hmu) as (Hnone & Hpm & Ham).
  pose proof (digitsValue_nonneg h 0 Hh (Z.le_refl 0)) as Hh0.
  pose proof (digitsValue_nonneg mm 0 Hmm (Z.le_refl 0)) as Hm0.
  destruct H3 as [H3 | (a & H3 & Ha)].
  - eexists _, _. split; [|split; [|exact (Hnone H3)]]; assumption.
  - apply isMeridiemLetter_cases in Ha as [Ha | [Ha | [Ha | Ha]]].
    1,2: eexists _, _; split; [|split; [|apply (Ham a H3); auto]]; [|assumption].
    3,4: eexists _, _; split; [|split; [|apply (Hpm a H3); auto]]; [|assumption].
    all: destruct (digitsValue 0 h =? 12); lia.
Qed.

Lemma parseTimeOfDay_throws_iff s :
  parseTimeOfDay s = Throw (Error ("Invalid time-of-day string: " +:+ s))
  <-> ~ hasClockPattern s.
Proof.
  rewrite <- timeOfDay_occurs_iff, <- search_None_iff.
  split.
  - intros H. destruct (search timeOfDayPattern s) as [m|] eqn:Hs; [|reflexivity].
    destruct (parseTimeOfDay_found s m Hs) as (hh & mi & _ & _ & Heq). congruence.
  - intros Hs. unfold parseTimeOfDay. now rewrite Hs.
Qed.

Lemma parseTimeOfDay_returns_iff s :
  returns (parseTimeOfDay s) <-> hasClockPattern s.
Proof.
  rewrite <- timeOfDay_occurs_iff. split.
  - intros [t Ht] . destruct (search timeOfDayPattern s) as [m|] eqn:Hs.
    + apply search_sound in Hs as (before & Hs & Hm).
      exists before, (matched m), (after m), (groups m). auto.
    + unfold parseTimeOfDay in Ht. rewrite Hs in Ht. discriminate.
  - intros Hocc. destruct (search timeOfDayPattern s) as [m|] eqn:Hs.
    + destruct (parseTimeOfDay_found s m Hs) as (hh & mi & _ & _ & Heq).
      rewrite Heq. eexists; reflexivity.
    + apply search_None_iff in Hs. contradiction.
Qed.

(** The match found at the start of a text that is a clock time and nothing
    more. *)
Lemma timeOfDay_match_plain h mm :
  allDigits h = true -> (String.length h = 1 \/ String.length h = 2)%nat ->
  allDigits mm = true -> String.length mm = 2%nat ->
  exists m,
    search timeOfDayPattern (h +:+ ":" +:+ mm) = Some m /\
    groups m !! 1%nat = Some h /\ groups m !! 2%nat = Some mm /\
    groups m !! 3%nat = None.
Proof.
  intros Hh Hlh Hm Hlm.
  eexists. split.
  - apply search_here. unfold matchHere, timeOfDayPattern.
    rewrite <- (append_empty_r mm) at 1.
    run_step.
    apply repeatClass_greedy; [assumption | lia | intros m [= <-]; lia | left; reflexivity |].
    rewrite taken_append.
    run_step. change (":" +:+ ?x) with (String ":" x).
    rewrite run_Class_true by reflexivity.
    run_step.
    apply repeatClass_greedy; [assumption | lia | intros m [= <-]; lia | exact I |].
    rewrite taken_append. reflexivity.
  - simpl. repeat split; reflexivity.
Qed.

(** ** The tone pattern *)

Lemma nonempty_of_length (t : string) n : (S n <= String.length t)%nat -> t <> "".
Proof. intros H ->. simpl in H. lia. Qed.

Lemma isSignedText_of_match t c c' :
  matches signedInt t c c' -> isSignedText t /\ c' = c.
Proof.
  unfold signedInt. intros H. invert_matches.
  - match goal with Hc : isChar "-" ?a = true |- _ => apply isChar_eq in Hc; subst a end.
    split; [|reflexivity]. right. eexists. split; [reflexivity|].
    split; [assumption | eapply nonempty_of_length; eassumption].
  - split; [|reflexivity]. left. rewrite append_empty_l.
    split; [assumption | eapply nonempty_of_length; eassumption].
Qed.

Lemma isSeparatorText_of_match t c c' :
  matches separators t c c' -> isSeparatorText t /\ c' = c.
Proof.
  unfold separators. intros H. invert_matches.
  split; [|reflexivity].
  split; [assumption | eapply nonempty_of_length; eassumption].
Qed.

Lemma matches_signedInt t c : isSignedText t -> matches signedInt t c c.
Proof.
  intros [[Hd Hne] | (d & -> & Hd & Hne)]; unfold signedInt.
  - rewrite <- (append_empty_l t). apply matches_Seq with (c1 := c).
    + apply matches_Opt_none.
    + apply matches_Repeat; [assumption | | discriminate].
      destruct t; [congruence | simpl; lia].
  - change (String "-" d) with ("-" +:+ d). apply matches_Seq with (c1 := c).
    + apply matches_Opt_some. now apply matches_Class.
    + apply matches_Repeat; [assumption | | discriminate].
      destruct d; [congruence | simpl; lia].
Qed.

Lemma matches_separators t c : isSeparatorText t -> matches separators t c c.
Proof.
  intros [Hs Hne]. apply matches_Repeat; [assumption | | discriminate].
  destruct t; [congruence | simpl; lia].
Qed.

(** What a match of the tone pattern consists of, and what its groups
    hold. *)
Lemma tone_matches_inv t c :
  matches tonePattern t ∅ c ->
  exists r sep1 g sep2 b sep3 gray,
    t = r +:+ sep1 +:+ g +:+ sep2 +:+ b +:+ sep3 +:+ gray /\
    isSignedText r /\ isSeparatorText sep1 /\
    isSignedText g /\ isSeparatorText sep2 /\
    isSignedText b /\ isSeparatorText sep3 /\
    isUnsignedText gray /\
    c !! 1%nat = Some r /\ c !! 2%nat = Some g /\
    c !! 3%nat = Some b /\ c !! 4%nat = Some gray.
Proof.
  unfold tonePattern. intros H.
  repeat match goal with
  | H : matches (Seq _ _) _ _ _ |- _ => inversion H; subst; clear H
  | H : matches (Group _ _) _ _ _ |- _ => inversion H; subst; clear H
  | H : matches signedInt _ _ _ |- _ => apply isSignedText_of_match in H as [? ->]
  | H : matches separators _ _ _ |- _ => apply isSeparatorText_of_match in H as [? ->]
  | H : matches (Repeat _ _ _) _ _ _ |- _ => inversion H; subst; clear H
  end.
  do 7 eexists. split; [reflexivity|].
  repeat match goal with |- _ /\ _ => split end; try assumption; try reflexivity.
  split; [assumption | eapply nonempty_of_length; eassumption].
Qed.

Lemma tone_occurs_iff s : occursIn tonePattern s <-> hasTonePattern s.
Proof.
  split.
  - intros (before & t & rest & c & -> & Hm).
    apply tone_matches_inv in Hm
      as (r & sep1 & g & sep2 & b & sep3 & gray & -> & Hr & H1 & Hg & H2 & Hb & H3 & Hgray & _).
    exists before, r, sep1, g, sep2, b, sep3, gray, rest.
    repeat match goal with |- _ /\ _ => split end; try assumption.
    now rewrite <- !append_assoc.
  - intros (before & r & sep1 & g & sep2 & b & sep3 & gray & rest
            & -> & Hr & H1 & Hg & H2 & Hb & H3 & Hgray).
    exists before, (r +:+ sep1 +:+ g +:+ sep2 +:+ b +:+ sep3 +:+ gray), rest,
      (<[4%nat := gray]> (<[3%nat := b]> (<[2%nat := g]> (<[1%nat := r]> ∅)))).
    split.
    + rewrite <- !append_assoc. reflexivity.
    + unfold tonePattern.
      repeat first
        [ apply matches_Group
        | apply matches_signedInt; assumption
        | apply matches_separators; assumption
        | eapply matches_Seq ].
      destruct Hgray as [Hd Hne].
      apply matches_Repeat; [assumption | | discriminate].
      destruct gray; [congruence | simpl; lia].
Qed.

(** A match always leads to a tone, whose last component comes from a run
    of digits. *)
Lemma parseTone_found s m :
  search tonePattern s = Some m ->
  exists r g b gray,
    groups m !! 1%nat = Some r /\ groups m !! 2%nat = Some g /\
    groups m !! 3%nat = Some b /\ groups m !! 4%nat = Some gray /\
    isSignedText r /\ isSignedText g /\ isSignedText b /\ isUnsignedText gray /\
    parseTone s = Return [signedValue r; signedValue g; signedValue b; digitsValue 0 gray].
Proof.
  intros Hs. pose proof Hs as (before & _ & Hm)%search_sound.
  apply tone_matches_inv in Hm
    as (r & sep1 & g & sep2 & b & sep3 & gray & _ & Hr & _ & Hg & _ & Hb & _ & Hgray
        & H1 & H2 & H3 & H4).
  exists r, g, b, gray.
  repeat match goal with |- _ /\ _ => split end; try assumption.
  unfold parseTone, parseIntOfGroup. rewrite Hs, H1, H2, H3, H4.
  rewrite (parseInt_signed r Hr), (parseInt_signed g Hg), (parseInt_signed b Hb),
    (parseInt_unsigned gray Hgray).
  reflexivity.
Qed.

Lemma parseTone_throws_iff s :
  parseTone s = Throw (Error ("Tone parse error: " +:+ s)) <-> ~ hasTonePattern s.
Proof.
  rewrite <- tone_occurs_iff, <- search_None_iff.
  split.
  - intros H. destruct (search tonePattern s) as [m|] eqn:Hs; [|reflexivity].
    destruct (parseTone_found s m Hs) as (r & g & b & gray & _ & _ & _ & _ & _ & _ & _ & _ & Heq).
    congruence.
  - intros Hs. unfold parseTone. now rewrite Hs.
Qed.

Lemma parseTone_returns_iff s : returns (parseTone s) <-> hasTonePattern s.
Proof.
  rewrite <- tone_occurs_iff. split.
  - intros [t Ht]. destruct (search tonePattern s) as [m|] eqn:Hs.
    + apply search_sound in Hs as (before & Hs & Hm).
      exists before, (matched m), (after m), (groups m). auto.
    + unfold parseTone in Ht. rewrite Hs in Ht. discriminate.
  - intros Hocc. destruct (search tonePattern s) as [m|] eqn:Hs.
    + destruct (parseTone_found s m Hs) as (r & g & b & gray & _ & _ & _ & _ & _ & _ & _ & _ & Heq).
      rewrite Heq. eexists; reflexivity.
    + apply search_None_iff in Hs. contradiction.
Qed.

(** The fourth component of a tone is never negative. *)
Lemma parseTone_gray_nonneg s tone :
  parseTone s = Return tone ->
  exists r g b gray, tone = [r; g; b; gray] /\ 0 <= gray.
Proof.
  intros Ht. destruct (search tonePattern s) as [m|] eqn:Hs.
  - destruct (parseTone_found s m Hs)
      as (r & g & b & gray & _ & _ & _ & _ & _ & _ & _ & [Hgray _] & Heq).
    rewrite Heq in Ht. injection Ht as <-.
    eexists _, _, _, _. split; [reflexivity|].
    now apply digitsValue_nonneg.
  - unfold parseTone in Ht. rewrite Hs in Ht. discriminate.
Qed.

(** ** The name space after "Parameter init" *)

Lemma bind_Return {A B} (m : outcome A) (f : A -> outcome B) b :
  m ≫= f = Return b -> exists a, m = Return a /\ f a = Return b.
Proof. destruct m as [a| |]; try discriminate. intros H. exists a. auto. Qed.

Lemma Return_inj {A} (a b : A) : Return a = Return b -> a = b.
Proof. now intros [= ->]. Qed.

Ltac bind_inv H :=
  repeat (cbv beta zeta in H;
          let x := fresh "x" in
          let Hx := fresh "Hx" in
          apply bind_Return in H as (x & Hx & H)).

(** "Parameter init" assigns the names of [assignedNames] and no other; the
    night tone and the outdoor keyword are the parsed parameters. *)
Lemma initParam_inv Parameters Param :
  initParam Parameters = Return Param ->
  dom Param = list_to_set assignedNames /\
  (exists tone, onText parseTone (Parameters !! "Night Tone") = Return tone /\
     Param !! "NightTone" = Some (toneValue tone)) /\
  Param !! "OutdoorLightingKeyword" = Some (VString (outdoorKeyword Parameters)).
Proof.
  unfold initParam. intros H. bind_inv H.
  cbv beta zeta in H. apply Return_inj in H. subst Param.
  split; [|split].
  - rewrite !dom_insert_L, dom_empty_L. reflexivity.
  - eexists. split; [eassumption|]. now simplify_map_eq.
  - now simplify_map_eq.
Qed.

Lemma loadPlugin_installed Parameters McK :
  loadPlugin Parameters = Return McK -> installed Parameters McK.
Proof.
  unfold loadPlugin. intros H. bind_inv H. cbv beta zeta in H.
  apply Return_inj in H. subst McK.
  eexists _, _. split; [eassumption | reflexivity].
Qed.

Lemma loadPlugin_default : loadPlugin defaultParameters = Return defaultNameSpace.
Proof. vm_cast_no_check (eq_refl (Return defaultNameSpace)). Qed.

Lemma loadPlugin_switch : loadPlugin switchParameters = Return switchNameSpace.
Proof. vm_cast_no_check (eq_refl (Return switchNameSpace)). Qed.

Lemma installed_default : installed defaultParameters defaultNameSpace.
Proof. exact (loadPlugin_installed _ _ loadPlugin_default). Qed.

Lemma installed_switch : installed switchParameters switchNameSpace.
Proof. exact (loadPlugin_installed _ _ loadPlugin_switch). Qed.

Lemma Param_get_installed Parameters McK name :
  installed Parameters McK ->
  exists Param, initParam Parameters = Return Param /\
    Param_get McK name = Return (prop Param name).
Proof.
  intros (Param & cycle & Hinit & ->). exists Param. split; [assumption|].
  unfold Param_get, DayNight_get, nameSpace, DayNightObject, get, prop.
  now simplify_map_eq.
Qed.

(** A property of [Param] that the script never assigns reads as
    [undefined]. *)
Lemma Param_get_unassigned Parameters McK name :
  installed Parameters McK ->
  existsb (String.eqb name) assignedNames = false ->
  Param_get McK name = Return VUndefined.
Proof.
  intros Hin Hname.
  destruct (Param_get_installed Parameters McK name Hin) as (Param & Hinit & ->).
  apply initParam_inv in Hinit as (Hdom & _).
  unfold prop. replace (Param !! name) with (@None value); [reflexivity|].
  symmetry. apply not_elem_of_dom. rewrite Hdom, elem_of_list_to_set.
  intros Hel%list_elem_of_In.
  assert (existsb (String.eqb name) assignedNames = true); [|congruence].
  apply existsb_exists. exists name. split; [assumption | apply String.eqb_refl].
Qed.

(** [McKathlin.DayNight._switching], [McKathlin.DayNight.DEFAULT_TONE] and
    [McKathlin.Param] are never assigned either. *)
Lemma DayNight_get_switching Parameters McK :
  installed Parameters McK -> DayNight_get McK "_switching" = Return VUndefined.
Proof.
  intros (Param & cycle & Hinit & ->).
  unfold DayNight_get, nameSpace, DayNightObject, get, prop. now simplify_map_eq.
Qed.

Lemma DayNight_get_DEFAULT_TONE Parameters McK :
  installed Parameters McK -> DayNight_get McK "DEFAULT_TONE" = Return VUndefined.
Proof.
  intros (Param & cycle & Hinit & ->).
  unfold DayNight_get, nameSpace, DayNightObject, get, prop. now simplify_map_eq.
Qed.

Lemma McKathlin_Param_undefined Parameters McK :
  installed Parameters McK -> get (VObject McK) "Param" = Return VUndefined.
Proof.
  intros (Param & cycle & Hinit & ->).
  unfold nameSpace, get, prop. now simplify_map_eq.
Qed.

(** ** Day and night *)

(** Whatever the plugin parameters, the first comparison of [isDaytime] is
    with [undefined]. *)
Lemma isDaytime_installed {O} `{TotalMinutesGet O} Parameters McK (this : O) :
  installed Parameters McK -> isDaytime McK this = Return false.
Proof.
  intros Hin. unfold isDaytime.
  now rewrite (Param_get_unassigned Parameters McK "DayStartTimeAsMinutes" Hin eq_refl).
Qed.

(** C6 (the code departs from the claim).  For every plugin configuration
    and every instant, [isDaytime] returns false and [isNight] true: the
    minute of the day is compared with [Param.DayStartTimeAsMinutes], a
    property that "Parameter init" never assigns (it assigns
    [DayStartTime]), that is with [undefined]. *)
Theorem isDaytime_always_false {O} `{TotalMinutesGet O} Parameters McK (this : O) :
  installed Parameters McK ->
  isDaytime McK this = Return false /\ isNight McK this = Return true.
Proof.
  intros Hin. unfold isNight.
  rewrite (isDaytime_installed Parameters McK this Hin). split; reflexivity.
Qed.

(** With the default parameters (day from 6:00 AM, night from 8:00 PM),
    [isDaytime] is false at 6:00. *)
Lemma isDaytime_always_false_witness :
  loadPlugin defaultParameters = Return defaultNameSpace /\
  isDaytime defaultNameSpace (initialize None (Some 6) None) = Return false /\
  isNight defaultNameSpace (initialize None (Some 6) None) = Return true.
Proof.
  split; [exact loadPlugin_default|].
  exact (isDaytime_always_false defaultParameters defaultNameSpace _ installed_default).
Defined.

(** ** Tone resolution *)

Lemma Param_get_NightTone Parameters McK :
  installed Parameters McK ->
  exists tone, onText parseTone (Parameters !! "Night Tone") = Return tone /\
    Param_get McK "NightTone" = Return (toneValue tone).
Proof.
  intros Hin.
  destruct (Param_get_installed Parameters McK "NightTone" Hin) as (Param & Hinit & ->).
  apply initParam_inv in Hinit as (_ & (tone & Htone & Hnight) & _).
  exists tone. split; [assumption|]. unfold prop. now rewrite Hnight.
Qed.

Lemma Param_get_OutdoorLightingKeyword Parameters McK :
  installed Parameters McK ->
  Param_get McK "OutdoorLightingKeyword" = Return (VString (outdoorKeyword Parameters)).
Proof.
  intros Hin.
  destruct (Param_get_installed Parameters McK "OutdoorLightingKeyword" Hin)
    as (Param & Hinit & ->).
  apply initParam_inv in Hinit as (_ & _ & Hkey).
  unfold prop. now rewrite Hkey.
Qed.

(** C1 (the code departs from the claim).  For every plugin configuration
    and every instant, [getOutsideTone] returns the night tone: the four
    boundaries it compares the minute of the day with
    ([Param.DawnStartTimeAsMinutes] and the like) are properties that
    "Parameter init" never assigns, so every comparison is with [undefined]
    and the last branch is taken. *)
Theorem getOutsideTone_always_night {O} `{TotalMinutesGet O} Parameters McK (this : O) :
  installed Parameters McK ->
  exists tone, onText parseTone (Parameters !! "Night Tone") = Return tone /\
    getOutsideTone McK this = Return (toneValue tone).
Proof.
  intros Hin. destruct (Param_get_NightTone Parameters McK Hin) as (tone & Htone & Hnight).
  exists tone. split; [assumption|]. unfold getOutsideTone.
  rewrite (Param_get_unassigned Parameters McK "DawnStartTimeAsMinutes" Hin eq_refl).
  rewrite (Param_get_unassigned Parameters McK "DawnEndTimeAsMinutes" Hin eq_refl).
  rewrite (Param_get_unassigned Parameters McK "DuskStartTimeAsMinutes" Hin eq_refl).
  rewrite (Param_get_unassigned Parameters McK "DuskEndTimeAsMinutes" Hin eq_refl).
  exact Hnight.
Qed.

(** With the default parameters, the outside tone at noon (between the end
    of dawn, 8:00, and the start of dusk, 18:00) is the night tone
    [(-68, -68, 0, 68)], not the daylight tone [(0, 0, 0, 0)]. *)
Lemma getOutsideTone_always_night_witness :
  loadPlugin defaultParameters = Return defaultNameSpace /\
  Param_get defaultNameSpace "DaylightTone" = Return (toneValue [0; 0; 0; 0]) /\
  getOutsideTone defaultNameSpace (initialize None (Some 12) None)
  = Return (toneValue [-68; -68; 0; 68]).
Proof.
  split; [exact loadPlugin_default|].
  split; [vm_compute; reflexivity|].
  destruct (getOutsideTone_always_night defaultParameters defaultNameSpace
    (initialize None (Some 12) None) installed_default) as (tone & Htone & ->).
  vm_compute in Htone. apply Return_inj in Htone. subst tone. reflexivity.
Defined.

(** C4 (the code departs from the claim).  For every plugin configuration
    and every instant, a keyword that is not empty and is not the outdoor
    keyword makes [getToneByKeyword] throw a [TypeError]: it looks the
    keyword up in [Param.SimpleLightingPresets], which "Parameter init" never
    assigns (it fills [LightingPresets]).  An empty or unset keyword returns
    [McKathlin.DayNight.DEFAULT_TONE], which is never assigned either, that
    is [undefined]. *)
Theorem getToneByKeyword_fails {O} `{TotalMinutesGet O} Parameters McK (this : O) :
  installed Parameters McK ->
  (forall text, text <> "" -> toLowerCase text <> outdoorKeyword Parameters ->
     getToneByKeyword McK (VString text) this
     = Throw (TypeError ("Cannot read property '" +:+ toLowerCase text +:+ "' of undefined"))) /\
  getToneByKeyword McK (VString "") this = Return VUndefined /\
  getToneByKeyword McK VUndefined this = Return VUndefined /\
  getToneByKeyword McK VNull this = Return VUndefined.
Proof.
  intros Hin.
  pose proof (DayNight_get_DEFAULT_TONE Parameters McK Hin) as Hdefault.
  split; [|unfold getToneByKeyword; simpl; now rewrite Hdefault].
  intros text Hne Hout. unfold getToneByKeyword.
  assert (truthy (VString text) = true) as ->.
  { simpl. destruct (String.eqb_spec text ""); [contradiction | reflexivity]. }
  rewrite (Param_get_OutdoorLightingKeyword Parameters McK Hin). simpl.
  destruct (String.eqb_spec (toLowerCase text) (outdoorKeyword Parameters));
    [contradiction|].
  now rewrite (Param_get_unassigned Parameters McK "SimpleLightingPresets" Hin eq_refl).
Qed.

(** With the default parameters, the keyword "Cave" (no preset has that
    name) throws, and so does the keyword "Fire" of the second preset. *)
Lemma getToneByKeyword_fails_witness :
  loadPlugin defaultParameters = Return defaultNameSpace /\
  getToneByKeyword defaultNameSpace (VString "Cave") (initialize None (Some 12) None)
  = Throw (TypeError "Cannot read property 'cave' of undefined") /\
  getToneByKeyword defaultNameSpace (VString "Fire") (initialize None (Some 12) None)
  = Throw (TypeError "Cannot read property 'fire' of undefined").
Proof.
  split; [exact loadPlugin_default|].
  pose proof (proj1 (getToneByKeyword_fails defaultParameters defaultNameSpace
    (initialize None (Some 12) None) installed_default)) as Hfail.
  split; apply Hfail; [discriminate | vm_compute; discriminate ..].
Defined.

(** ** The clock controller and the switch protection *)

Lemma installed_assign Parameters name v w :
  installed Parameters (McKathlin w) ->
  installed Parameters (McKathlin (DayNightCycle_assign name v w)).
Proof.
  intros (Param & cycle & Hinit & Heq).
  exists Param, (<[name := v]> cycle). split; [assumption|].
  unfold DayNightCycle_assign. simpl. rewrite Heq. unfold nameSpace.
  rewrite lookup_insert_eq. now rewrite insert_insert_eq.
Qed.

(** A write addressed to [undefined] is not examined by the protection. *)
Lemma setValue_undefined v w :
  Game_Switches_setValue VUndefined v w = Return (engine_setSwitch VUndefined v w).
Proof. reflexivity. Qed.

(** Every write to a switch with a positive number throws a [TypeError],
    whatever the flag [McKathlin.DayNightCycle._switching] holds. *)
Lemma setValue_positive Parameters switchId v w :
  installed Parameters (McKathlin w) -> 0 < switchId ->
  Game_Switches_setValue (VNum switchId) v w
  = Throw (TypeError "Cannot read property 'DaytimeSwitchID' of undefined").
Proof.
  intros Hin Hpos. unfold Game_Switches_setValue, js_positive.
  cbn [mbind outcome_bind mret outcome_ret ToNumber].
  apply Z.ltb_lt in Hpos. rewrite Hpos.
  rewrite (DayNight_get_switching Parameters _ Hin).
  cbn [mbind outcome_bind mret outcome_ret truthy negb].
  now rewrite (McKathlin_Param_undefined Parameters _ Hin).
Qed.

(** The synchronisation step: the two switch values are written to the
    switch [undefined], the three variables to the variable [undefined]. *)
Lemma updateTime_installed Parameters w :
  installed Parameters (McKathlin w) ->
  updateTime w
  = Return (Game_Variables_setValue VUndefined (getMinutes w)
           (Game_Variables_setValue VUndefined (getHours w)
           (Game_Variables_setValue VUndefined (getDays w)
           (engine_setSwitch VUndefined true
           (engine_setSwitch VUndefined false w))))).
Proof.
  intros Hin. unfold updateTime.
  rewrite (isDaytime_installed Parameters _ w Hin).
  rewrite (Param_get_unassigned Parameters _ "DaytimeSwitch" Hin eq_refl).
  rewrite (Param_get_unassigned Parameters _ "NightSwitch" Hin eq_refl).
  rewrite (Param_get_unassigned Parameters _ "DaysPassedVariable" Hin eq_refl).
  rewrite (Param_get_unassigned Parameters _ "CurrentHourVariable" Hin eq_refl).
  rewrite (Param_get_unassigned Parameters _ "CurrentMinuteVariable" Hin eq_refl).
  reflexivity.
Qed.

Lemma changeTimeTo_installed Parameters minutes w :
  installed Parameters (McKathlin w) ->
  exists w', changeTimeTo minutes w = Return w' /\
    gameSystem_totalMinutes w' = minutes /\
    installed Parameters (McKathlin w') /\
    timeChanged w' = S (timeChanged w).
Proof.
  intros Hin. unfold changeTimeTo.
  pose proof (installed_assign Parameters "_switching" (VBool true) w Hin) as Hin1.
  rewrite (updateTime_installed Parameters
    (store_totalMinutes minutes (DayNightCycle_assign "_switching" (VBool true) w)) Hin1).
  eexists. split; [reflexivity|]. repeat split.
  apply installed_assign. exact Hin1.
Qed.

(** C8 (the code departs from the claim).  For every plugin configuration,
    whatever its new-game start time, [reset] leaves the clock at minute 0:
    the time of day it moves forward to is built from
    [Param.NewGameStartTimeAsMinutes], a property that "Parameter init" never
    assigns (it assigns [NewGameStartTime]), so the target is 0:00. *)
Theorem reset_leaves_midnight Parameters w :
  installed Parameters (McKathlin w) ->
  exists w', reset w = Return w' /\ getTotalMinutes w' = 0 /\ getDays w' = 0.
Proof.
  intros Hin. unfold reset, setTotalMinutes, set_totalMinutes, DayNightCycle_set.
  destruct (changeTimeTo_installed Parameters 0 w Hin) as (w1 & -> & Hzero & Hin1 & _).
  cbn [mbind outcome_bind].
  rewrite (Param_get_unassigned Parameters _ "NewGameStartTimeAsMinutes" Hin1 eq_refl).
  cbn [mbind outcome_bind minutesArgument truthy negb].
  unfold setForwardTo, set_totalMinutes.
  assert (Hdiff : totalMinutes w1 + forwardDifference w1 (initialize (Some 0) (Some 0) None) = 0).
  { unfold forwardDifference, getMinutesOfDay, totalMinutes, DayNightCycle_get, TimeSpan_get.
    rewrite Hzero. reflexivity. }
  rewrite Hdiff.
  destruct (changeTimeTo_installed Parameters 0 w1 Hin1) as (w2 & -> & Hzero2 & _).
  exists w2. split; [reflexivity|].
  unfold getTotalMinutes, getDays, totalMinutes, DayNightCycle_get.
  now rewrite Hzero2.
Qed.

(** With the default parameters (new games start at 8:00 AM), [reset]
    leaves the clock at minute 0, not at minute 480. *)
Lemma reset_leaves_midnight_witness :
  loadPlugin defaultParameters = Return defaultNameSpace /\
  Param_get defaultNameSpace "NewGameStartTime" = Return (VTimeSpan 480) /\
  exists w',
    reset (newWorld defaultNameSpace 77) = Return w' /\
    getTotalMinutes w' = 0 /\ getDays w' = 0.
Proof.
  split; [exact loadPlugin_default|].
  split; [vm_compute; reflexivity|].
  exact (reset_leaves_midnight defaultParameters (newWorld defaultNameSpace 77)
    installed_default).
Defined.

(** C2 (the code departs from the claim).  For every plugin configuration:
    a write to any switch with a positive number, reserved or not, throws a
    [TypeError] and never the "reserved" error, because the protection reads
    the reserved numbers from [McKathlin.Param], which does not exist (they
    are in [McKathlin.DayNight.Param]); this is so whether the flag
    [McKathlin.DayNightCycle._switching] is set or not, because the
    protection reads [McKathlin.DayNight._switching], which is never
    assigned; and the controller's own writes during the synchronisation
    pass only because they are addressed to the switch [undefined]
    ([Param.DaytimeSwitch] and [Param.NightSwitch] are never assigned
    either). *)
Theorem switch_protection_misses Parameters w :
  installed Parameters (McKathlin w) ->
  (forall flag switchId v, 0 < switchId ->
     Game_Switches_setValue (VNum switchId) v
       (DayNightCycle_assign "_switching" (VBool flag) w)
     = Throw (TypeError "Cannot read property 'DaytimeSwitchID' of undefined")) /\
  (exists w',
     updateTime (DayNightCycle_assign "_switching" (VBool true) w) = Return w' /\
     gameSwitches w' = (VUndefined, true) :: (VUndefined, false) :: gameSwitches w).
Proof.
  intros Hin. split.
  - intros flag switchId v Hpos.
    apply (setValue_positive Parameters); [|assumption].
    now apply installed_assign.
  - rewrite (updateTime_installed Parameters); [|now apply installed_assign].
    eexists. split; reflexivity.
Qed.

(** With switch 5 configured as the daytime switch, an outside write to
    switch 5 while the flag is unset throws a [TypeError]; so does a write to
    switch 7, which is not reserved; and so does a write to switch 5 while
    the flag is set. *)
Lemma switch_protection_misses_witness :
  loadPlugin switchParameters = Return switchNameSpace /\
  Param_get switchNameSpace "DaytimeSwitchID" = Return (VNum 5) /\
  Game_Switches_setValue (VNum 5) true
    (DayNightCycle_assign "_switching" (VBool false) (newWorld switchNameSpace 0))
  = Throw (TypeError "Cannot read property 'DaytimeSwitchID' of undefined") /\
  Game_Switches_setValue (VNum 7) true
    (DayNightCycle_assign "_switching" (VBool false) (newWorld switchNameSpace 0))
  = Throw (TypeError "Cannot read property 'DaytimeSwitchID' of undefined") /\
  Game_Switches_setValue (VNum 5) true
    (DayNightCycle_assign "_switching" (VBool true) (newWorld switchNameSpace 0))
  = Throw (TypeError "Cannot read property 'DaytimeSwitchID' of undefined").
Proof.
  split; [exact loadPlugin_switch|].
  split; [vm_compute; reflexivity|].
  pose proof (proj1 (switch_protection_misses switchParameters
    (newWorld switchNameSpace 0) installed_switch)) as Hthrow.
  split; [|split]; apply Hthrow; reflexivity.
Defined.

(** ** Time values *)

Lemma initialize_minutes m :
  totalMinutes (initialize (Some 0) (Some 0) (Some m)) = m.
Proof. unfold initialize, totalMinutes, TimeSpan_get. simpl. lia. Qed.

(** C5. For every TimeSpan constructed from a minute count [m >= 0]:
    [getHours()*60 + getMinutes() == getMinutesOfDay()] and
    [getDays()*1440 + getMinutesOfDay() == getTotalMinutes()]. *)
Theorem TimeSpan_decomposition (m : Z) :
  0 <= m ->
  let t := initialize (Some 0) (Some 0) (Some m) in
  getTotalMinutes t = m /\
  getHours t * 60 + getMinutes t = getMinutesOfDay t /\
  getDays t * 1440 + getMinutesOfDay t = getTotalMinutes t.
Proof.
  intros Hm t.
  unfold getTotalMinutes, getHours, getMinutes, getMinutesOfDay, getDays.
  subst t. rewrite initialize_minutes.
  unfold MINUTES_PER_DAY, MINUTES_PER_HOUR, HOURS_PER_DAY.
  change (60 * 24) with 1440.
  assert (0 <= m / 60) by (apply Z.div_pos; lia).
  rewrite !Z.rem_mod_nonneg by lia.
  repeat split.
  - pose proof (Z.div_mod m 60). pose proof (Z.div_mod (m / 60) 24).
    pose proof (Z.div_mod m 1440).
    pose proof (Z.mod_pos_bound m 60). pose proof (Z.mod_pos_bound (m / 60) 24).
    pose proof (Z.mod_pos_bound m 1440).
    assert (m / 60 / 24 = m / 1440) by (rewrite Z.div_div by lia; reflexivity).
    lia.
  - pose proof (Z.div_mod m 1440). lia.
Qed.

(** The decomposition at minute 1575: day 1, 2:15. *)
Lemma TimeSpan_decomposition_witness :
  0 <= 1575 /\
  let t := initialize (Some 0) (Some 0) (Some 1575) in
  getTotalMinutes t = 1575 /\
  getHours t * 60 + getMinutes t = getMinutesOfDay t /\
  getDays t * 1440 + getMinutesOfDay t = getTotalMinutes t.
Proof.
  split; [lia|]. apply (TimeSpan_decomposition 1575). lia.
Defined.

Lemma getMinutesOfDay_range {O} `{TotalMinutesGet O} (this : O) :
  0 <= totalMinutes this -> 0 <= getMinutesOfDay this < 1440.
Proof.
  intros Hm. unfold getMinutesOfDay, MINUTES_PER_DAY, MINUTES_PER_HOUR, HOURS_PER_DAY.
  change (60 * 24) with 1440. rewrite Z.rem_mod_nonneg by lia.
  apply Z.mod_pos_bound. lia.
Qed.

Lemma getMinutesOfDay_add {O} `{TotalMinutesGet O} (this : O) (d : Z) :
  0 <= totalMinutes this -> 0 <= d ->
  getMinutesOfDay {| _totalMinutes := totalMinutes this + d |}
  = (getMinutesOfDay this + d) mod 1440.
Proof.
  intros Hm Hd. unfold getMinutesOfDay, MINUTES_PER_DAY, MINUTES_PER_HOUR, HOURS_PER_DAY.
  change (60 * 24) with 1440. unfold totalMinutes at 1, TimeSpan_get. simpl.
  rewrite !Z.rem_mod_nonneg by lia.
  now rewrite Zplus_mod_idemp_l.
Qed.

(** C3. For every instant with non-negative total minutes and every target
    time of day, [setForwardTo] adds the least [d >= 0] for which the
    resulting minute of the day is the target's; [d < 1440], so the instant
    never moves backward.  From day 0 at 22:00, the target 8:00 yields day 1
    at 8:00 and the target 23:00 yields day 0 at 23:00. *)
Theorem setForwardTo_least_forward :
  (forall this timeOfDay : TimeSpan,
     0 <= totalMinutes this -> 0 <= totalMinutes timeOfDay ->
     exists d,
       setForwardTo timeOfDay this = Return {| _totalMinutes := totalMinutes this + d |} /\
       0 <= d < 1440 /\
       getMinutesOfDay {| _totalMinutes := totalMinutes this + d |}
       = getMinutesOfDay timeOfDay /\
       (forall d', 0 <= d' ->
          getMinutesOfDay {| _totalMinutes := totalMinutes this + d' |}
          = getMinutesOfDay timeOfDay -> d <= d')) /\
  (exists t,
     setForwardTo (initialize (Some 0) (Some 8) (Some 0))
       (initialize (Some 0) (Some 22) (Some 0)) = Return t /\
     getDays t = 1 /\ getHours t = 8 /\ getMinutes t = 0) /\
  (exists t,
     setForwardTo (initialize (Some 0) (Some 23) (Some 0))
       (initialize (Some 0) (Some 22) (Some 0)) = Return t /\
     getDays t = 0 /\ getHours t = 23 /\ getMinutes t = 0).
Proof.
  split; [|split; eexists; (split; [reflexivity|]); repeat split; reflexivity].
  intros this timeOfDay Hthis Htarget.
  exists (forwardDifference this timeOfDay).
  split; [reflexivity|].
  pose proof (getMinutesOfDay_range this Hthis) as Hmine.
  pose proof (getMinutesOfDay_range timeOfDay Htarget) as Htheirs.
  assert (Hd : 0 <= forwardDifference this timeOfDay < 1440).
  { unfold forwardDifference.
    destruct (Z.ltb_spec (getMinutesOfDay timeOfDay - getMinutesOfDay this) 0);
      unfold MINUTES_PER_DAY, MINUTES_PER_HOUR, HOURS_PER_DAY; lia. }
  assert (Hsum : (getMinutesOfDay this + forwardDifference this timeOfDay) mod 1440
                 = getMinutesOfDay timeOfDay).
  { unfold forwardDifference.
    destruct (Z.ltb_spec (getMinutesOfDay timeOfDay - getMinutesOfDay this) 0);
      unfold MINUTES_PER_DAY, MINUTES_PER_HOUR, HOURS_PER_DAY.
    - replace (getMinutesOfDay this + (getMinutesOfDay timeOfDay - getMinutesOfDay this + 60 * 24))
        with (getMinutesOfDay timeOfDay + 1 * 1440) by lia.
      rewrite Z_mod_plus_full. apply Z.mod_small. lia.
    - replace (getMinutesOfDay this + (getMinutesOfDay timeOfDay - getMinutesOfDay this))
        with (getMinutesOfDay timeOfDay) by lia.
      apply Z.mod_small. lia. }
  split; [assumption|]. split.
  - rewrite getMinutesOfDay_add by lia. exact Hsum.
  - intros d' Hd' Heq. rewrite getMinutesOfDay_add in Heq by lia.
    rewrite <- Hsum in Heq.
    destruct (Z.le_gt_cases (forwardDifference this timeOfDay) d') as [|Hlt]; [assumption|].
    exfalso.
    set (a := getMinutesOfDay this) in *. set (d := forwardDifference this timeOfDay) in *.
    assert (Hdiff : (d - d') mod 1440 = 0).
    { replace (d - d') with ((a + d) - (a + d')) by lia.
      rewrite Zminus_mod, Heq, Z.sub_diag. reflexivity. }
    rewrite Z.mod_small in Hdiff by lia. lia.
Qed.

(** From day 0 at 22:00 to the target 8:00: 600 minutes are added. *)
Lemma setForwardTo_least_forward_witness :
  exists d,
    setForwardTo (initialize (Some 0) (Some 8) (Some 0))
      (initialize (Some 0) (Some 22) (Some 0))
    = Return {| _totalMinutes := 1320 + d |} /\ 0 <= d < 1440.
Proof.
  destruct (proj1 setForwardTo_least_forward
    (initialize (Some 0) (Some 22) (Some 0)) (initialize (Some 0) (Some 8) (Some 0)))
    as (d & Hset & Hd & _).
  - vm_compute. discriminate.
  - vm_compute. discriminate.
  - exists d. split; assumption.
Defined.

(** ** The parsers *)

(** Some character of a text is in a class. *)
Lemma anyOf_append p (s t : string) : anyOf p (s +:+ t) = anyOf p s || anyOf p t.
Proof.
  induction s as [|a s IH]; [reflexivity|].
  rewrite append_cons. simpl. rewrite IH. apply orb_assoc.
Qed.

(** The first clock time of a text. *)

Lemma markerOf_Some tail a :
  markerOf tail = Some a ->
  isMeridiemLetter a = true /\
  exists sp rest, tail = sp +:+ String a rest /\ (sp = "" \/ sp = " ").
Proof.
  destruct tail as [|x rest]; [discriminate|]. simpl.
  destruct (isMeridiemLetter x) eqn:Hx.
  - intros [= <-]. split; [exact Hx|]. exists "", rest. auto.
  - destruct (isChar " " x) eqn:Hsp; [|discriminate].
    apply isChar_eq in Hsp. subst x.
    destruct rest as [|b rest]; [discriminate|].
    destruct (isMeridiemLetter b) eqn:Hb; [|discriminate].
    intros [= <-]. split; [exact Hb|]. exists " ", rest. auto.
Qed.

Lemma meridiem_none {R} (k : string -> captures -> option R) tail c :
  markerOf tail = None ->
  (forall rest' c', is_Some (k rest' c')) ->
  exists rest', run meridiemPattern tail c k = k rest' c.
Proof.
  intros Hnone Hk.
  assert (forall s, match s with String b _ => isMeridiemLetter b = false | _ => True end ->
            run (Opt (Seq (Group 3 (Class isMeridiemLetter)) (Opt (Class (isLetterCI "m" "M")))))
              s c k = k s c) as Hgroup.
  { intros s Hs. apply run_Opt_always. run_step.
    destruct s as [|b s]; [reflexivity|]. now apply run_Class_false. }
  unfold meridiemPattern. run_step.
  destruct tail as [|a rest].
  - exists "". rewrite run_Opt_always by reflexivity. now apply Hgroup.
  - simpl in Hnone. destruct (isMeridiemLetter a) eqn:Ha; [discriminate|].
    destruct (isChar " " a) eqn:Hsp.
    + exists rest.
      assert (match rest with String b _ => isMeridiemLetter b = false | _ => True end) as Hrest.
      { destruct rest as [|b rest]; [exact I|].
        destruct (isMeridiemLetter b); [discriminate | reflexivity]. }
      destruct (Hk rest c) as [y Hy]. rewrite Hy.
      apply run_Opt_first. rewrite run_Class_true by exact Hsp.
      rewrite (Hgroup rest Hrest). exact Hy.
    + exists (String a rest).
      rewrite run_Opt_always by (now apply run_Class_false).
      now apply Hgroup.
Qed.

Lemma timeOfDay_matchHere h mm tail :
  allDigits h = true -> (String.length h = 1 \/ String.length h = 2)%nat ->
  allDigits mm = true -> String.length mm = 2%nat ->
  exists m,
    matchHere timeOfDayPattern (h +:+ ":" +:+ mm +:+ tail) = Some m /\
    groups m !! 1%nat = Some h /\ groups m !! 2%nat = Some mm /\
    groups m !! 3%nat = (fun a => String a "") <$> markerOf tail.
Proof.
  intros Hh Hlh Hm Hlm.
  set (s := h +:+ ":" +:+ mm +:+ tail).
  set (k := fun rest0 c => Some {| matched := taken s rest0; groups := c; after := rest0 |}).
  assert (exists rest' c',
            run meridiemPattern tail (<[2%nat := mm]> (<[1%nat := h]> ∅)) k = k rest' c' /\
            c' !! 1%nat = Some h /\ c' !! 2%nat = Some mm /\
            c' !! 3%nat = (fun a => String a "") <$> markerOf tail)
    as (rest' & c' & Htail & H1 & H2 & H3).
  { destruct (markerOf tail) as [a|] eqn:Hmark.
    - apply markerOf_Some in Hmark as (Ha & sp & rest & -> & Hsp).
      destruct (meridiem_marker k sp a rest (<[2%nat := mm]> (<[1%nat := h]> ∅)) Hsp Ha)
        as [rest' Hrun]; [intros; eexists; reflexivity|].
      exists rest', (<[3%nat := String a ""]> (<[2%nat := mm]> (<[1%nat := h]> ∅))).
      split; [exact Hrun|]. repeat split.
    - destruct (meridiem_none k tail (<[2%nat := mm]> (<[1%nat := h]> ∅)) Hmark)
        as [rest' Hrun]; [intros; eexists; reflexivity|].
      exists rest', (<[2%nat := mm]> (<[1%nat := h]> ∅)).
      split; [exact Hrun|]. repeat split. }
  exists {| matched := taken s rest'; groups := c'; after := rest' |}.
  split; [|simpl; auto].
  unfold matchHere, timeOfDayPattern. subst s. fold k.
  run_step.
  apply repeatClass_greedy; [assumption | lia | intros m [= <-]; lia | left; reflexivity |].
  rewrite taken_append.
  run_step. change (":" +:+ ?x) with (String ":" x).
  rewrite run_Class_true by reflexivity.
  run_step.
  apply repeatClass_greedy; [assumption | lia | intros m [= <-]; lia | |].
  { destruct tail; [exact I | right; now rewrite Hlm]. }
  rewrite taken_append. exact Htail.
Qed.

Lemma matchHere_clock s :
  matchHere timeOfDayPattern s = None <-> ~ clockStartsAt s.
Proof.
  split.
  - intros Hnone (h & mm & rest & -> & Hh & Hlh & Hm & Hlm).
    destruct (timeOfDay_matchHere h mm rest Hh Hlh Hm Hlm) as (m & Hsome & _).
    congruence.
  - intros Hno. destruct (matchHere timeOfDayPattern s) as [m|] eqn:Hm; [|reflexivity].
    exfalso. apply Hno. apply matchHere_sound in Hm as [E Hm].
    apply timeOfDay_matches_inv in Hm as (h & mm & tail & Et & Hh & Hlh & Hmm & Hlm & _).
    exists h, mm, (tail +:+ after m). rewrite E, Et.
    repeat split; try assumption. now rewrite <- !append_assoc.
Qed.

Lemma search_skip r before : forall tail,
  (forall b1 b2, before = b1 +:+ b2 -> b2 <> "" -> matchHere r (b2 +:+ tail) = None) ->
  search r (before +:+ tail) = search r tail.
Proof.
  induction before as [|a before IH]; intros tail Hno; [reflexivity|].
  rewrite append_cons. simpl.
  pose proof (Hno "" (String a before) eq_refl ltac:(discriminate)) as H0.
  rewrite append_cons in H0. rewrite H0.
  apply IH. intros b1 b2 -> Hne. apply (Hno (String a b1) b2); [reflexivity | exact Hne].
Qed.

Lemma search_leftmost r s : forall m,
  search r s = Some m ->
  exists before tail,
    s = before +:+ tail /\ matchHere r tail = Some m /\
    forall b1 b2, before = b1 +:+ b2 -> b2 <> "" -> matchHere r (b2 +:+ tail) = None.
Proof.
  induction s as [|a s IH]; intros m Hs; simpl in Hs.
  - destruct (matchHere r "") as [m'|] eqn:Hm; [|discriminate].
    exists "", "". split; [reflexivity|]. split; [congruence|].
    intros b1 b2 E Hne. destruct b1, b2; try discriminate. contradiction.
  - destruct (matchHere r (String a s)) as [m'|] eqn:Hm.
    + exists "", (String a s). split; [reflexivity|]. split; [congruence|].
      intros b1 b2 E Hne. destruct b1, b2; try discriminate. contradiction.
    + destruct (IH m Hs) as (before & tail & -> & Htail & Hno).
      exists (String a before), tail. split; [reflexivity|]. split; [exact Htail|].
      intros b1 b2 E Hne. destruct b1 as [|x b1].
      * rewrite append_empty_l in E. subst b2. rewrite append_cons. exact Hm.
      * rewrite append_cons in E. injection E as -> E. apply (Hno b1 b2 E Hne).
Qed.

Lemma parseTimeOfDay_first_clock before h mm tail :
  allDigits h = true -> (String.length h = 1 \/ String.length h = 2)%nat ->
  allDigits mm = true -> String.length mm = 2%nat ->
  noClockInside before (h +:+ ":" +:+ mm +:+ tail) ->
  parseTimeOfDay (before +:+ h +:+ ":" +:+ mm +:+ tail)
  = Return (initialize (Some 0)
              (Some (markedHours (digitsValue 0 h) (markerOf tail)))
              (Some (digitsValue 0 mm))).
Proof.
  intros Hh Hlh Hm Hlm Hfirst.
  assert (Hhu : isUnsignedText h).
  { destruct Hlh; eapply isUnsignedText_of_length; eauto. }
  assert (Hmu : isUnsignedText mm) by (eapply isUnsignedText_of_length; eauto).
  destruct (timeOfDay_matchHere h mm tail Hh Hlh Hm Hlm) as (m & Hhere & H1 & H2 & H3).
  assert (search timeOfDayPattern (before +:+ h +:+ ":" +:+ mm +:+ tail) = Some m) as Hs.
  { rewrite search_skip; [apply search_here, Hhere|].
    intros b1 b2 E Hne. apply matchHere_clock. exact (Hfirst b1 b2 E Hne). }
  destruct (parseTimeOfDay_of_groups _ m h mm Hs H1 H2 Hhu Hmu) as (Hnone & Hpm & Ham).
  destruct (markerOf tail) as [a|] eqn:Hmark; simpl in H3 |- *.
  - apply markerOf_Some in Hmark as [Ha _].
    apply isMeridiemLetter_cases in Ha as [-> | [-> | [-> | ->]]].
    + apply (Ham _ H3). auto.
    + apply (Ham _ H3). auto.
    + apply (Hpm _ H3). auto.
    + apply (Hpm _ H3). auto.
  - exact (Hnone H3).
Qed.

Lemma hasClockPattern_first s :
  hasClockPattern s ->
  exists before h mm tail,
    s = before +:+ h +:+ ":" +:+ mm +:+ tail /\
    allDigits h = true /\ (String.length h = 1 \/ String.length h = 2)%nat /\
    allDigits mm = true /\ String.length mm = 2%nat /\
    noClockInside before (h +:+ ":" +:+ mm +:+ tail).
Proof.
  intros Hs. apply timeOfDay_occurs_iff in Hs.
  destruct (search timeOfDayPattern s) as [m|] eqn:Hm;
    [|apply search_None_iff in Hm; contradiction].
  apply search_leftmost in Hm as (before & tail0 & -> & Hhere & Hno).
  pose proof Hhere as [E Hmatch]%matchHere_sound.
  apply timeOfDay_matches_inv in Hmatch as (h & mm & tail & Et & Hh & Hlh & Hmm & Hlm & _).
  exists before, h, mm, (tail +:+ after m).
  assert (tail0 = h +:+ ":" +:+ mm +:+ tail +:+ after m) as ->.
  { rewrite E, Et. now rewrite <- !append_assoc. }
  repeat match goal with |- _ /\ _ => split end; try assumption; try reflexivity.
  intros b1 b2 Eb Hne. apply matchHere_clock. exact (Hno b1 b2 Eb Hne).
Qed.

Lemma noClockInside_no_digit before tail :
  anyOf isDigit before = false -> noClockInside before tail.
Proof.
  intros Hno b1 b2 -> Hne (h & mm & rest & E & Hh & Hlh & _).
  rewrite anyOf_append in Hno. apply orb_false_iff in Hno as [_ Hno].
  destruct b2 as [|a b2]; [contradiction|].
  destruct h as [|x h]; [destruct Hlh; discriminate|].
  rewrite !append_cons in E. injection E as <- _.
  simpl in Hno, Hh. apply orb_false_iff in Hno as [Ha _].
  apply andb_true_iff in Hh as [Hx _]. unfold allDigits in *. congruence.
Qed.

Lemma markerOf_marker sp letter rest :
  sp = "" \/ sp = " " -> isMeridiemLetter letter = true ->
  markerOf (sp +:+ String letter rest) = Some letter.
Proof.
  intros [-> | ->] Hl; simpl; rewrite Hl; reflexivity.
Qed.

(** C7. [parseTimeOfDay] reads the first clock time of the text, wherever
    it starts: the hour is the hour field with the meridiem marker applied
    (12 AM is hour 0, 12 PM is hour 12, other PM hours get 12 added, other AM
    hours and hours without a marker stay as they are), the minute is the
    minute field, the day is 0; every text with an [H:MM] or [HH:MM] pattern
    has such a first clock time; the parser throws exactly when the text has
    no such pattern, with or without a marker, and returns otherwise;
    "12:00 AM" yields minute 0 of day 0, "12:00 PM" minute 720, "7:05 AM"
    minute 425 and "7:05 PM" minute 1145, also after other text. *)
Theorem parseTimeOfDay_spec :
  (forall before h mm tail,
     allDigits h = true -> (String.length h = 1 \/ String.length h = 2)%nat ->
     allDigits mm = true -> String.length mm = 2%nat ->
     noClockInside before (h +:+ ":" +:+ mm +:+ tail) ->
     parseTimeOfDay (before +:+ h +:+ ":" +:+ mm +:+ tail)
     = Return (initialize (Some 0)
                 (Some (markedHours (digitsValue 0 h) (markerOf tail)))
                 (Some (digitsValue 0 mm)))) /\
  (forall before h mm sp letter rest,
     allDigits h = true -> (String.length h = 1 \/ String.length h = 2)%nat ->
     allDigits mm = true -> String.length mm = 2%nat ->
     sp = "" \/ sp = " " ->
     noClockInside before (h +:+ ":" +:+ mm +:+ sp +:+ String letter rest) ->
     let H := digitsValue 0 h in
     let M := digitsValue 0 mm in
     let text := before +:+ h +:+ ":" +:+ mm +:+ sp +:+ String letter rest in
     (isLetterCI "p" "P" letter = true ->
        parseTimeOfDay text
        = Return (initialize (Some 0) (Some (if H =? 12 then 12 else H + 12)) (Some M))) /\
     (isLetterCI "a" "A" letter = true ->
        parseTimeOfDay text
        = Return (initialize (Some 0) (Some (if H =? 12 then 0 else H)) (Some M)))) /\
  (forall before h mm tail,
     allDigits h = true -> (String.length h = 1 \/ String.length h = 2)%nat ->
     allDigits mm = true -> String.length mm = 2%nat ->
     noClockInside before (h +:+ ":" +:+ mm +:+ tail) ->
     markerOf tail = None ->
     parseTimeOfDay (before +:+ h +:+ ":" +:+ mm +:+ tail)
     = Return (initialize (Some 0) (Some (digitsValue 0 h)) (Some (digitsValue 0 mm)))) /\
  (forall s, hasClockPattern s ->
     exists before h mm tail,
       s = before +:+ h +:+ ":" +:+ mm +:+ tail /\
       allDigits h = true /\ (String.length h = 1 \/ String.length h = 2)%nat /\
       allDigits mm = true /\ String.length mm = 2%nat /\
       noClockInside before (h +:+ ":" +:+ mm +:+ tail)) /\
  (forall before tail, anyOf isDigit before = false -> noClockInside before tail) /\
  (forall h mm sp letter rest,
     allDigits h = true -> (String.length h = 1 \/ String.length h = 2)%nat ->
     allDigits mm = true -> String.length mm = 2%nat ->
     sp = "" \/ sp = " " ->
     let H := digitsValue 0 h in
     let M := digitsValue 0 mm in
     let text := h +:+ ":" +:+ mm +:+ sp +:+ String letter rest in
     (isLetterCI "p" "P" letter = true ->
        parseTimeOfDay text
        = Return (initialize (Some 0) (Some (if H =? 12 then 12 else H + 12)) (Some M))) /\
     (isLetterCI "a" "A" letter = true ->
        parseTimeOfDay text
        = Return (initialize (Some 0) (Some (if H =? 12 then 0 else H)) (Some M)))) /\
  (forall s,
     parseTimeOfDay s = Throw (Error ("Invalid time-of-day string: " +:+ s))
     <-> ~ hasClockPattern s) /\
  (forall s, returns (parseTimeOfDay s) <-> hasClockPattern s) /\
  (exists t, parseTimeOfDay "12:00 AM" = Return t /\ getMinutesOfDay t = 0 /\ getDays t = 0) /\
  (exists t, parseTimeOfDay "12:00 PM" = Return t /\ getMinutesOfDay t = 720 /\ getDays t = 0) /\
  (exists t, parseTimeOfDay "7:05 AM" = Return t /\ getMinutesOfDay t = 425 /\ getDays t = 0) /\
  (exists t, parseTimeOfDay "7:05 PM" = Return t /\ getMinutesOfDay t = 1145 /\ getDays t = 0) /\
  (exists t, parseTimeOfDay " 12:00 AM" = Return t /\ getMinutesOfDay t = 0 /\ getDays t = 0) /\
  (exists t, parseTimeOfDay "at 7:05 PM" = Return t /\ getMinutesOfDay t = 1145 /\ getDays t = 0).
Proof.
  assert (forall before h mm sp letter rest,
     allDigits h = true -> (String.length h = 1 \/ String.length h = 2)%nat ->
     allDigits mm = true -> String.length mm = 2%nat ->
     sp = "" \/ sp = " " ->
     noClockInside before (h +:+ ":" +:+ mm +:+ sp +:+ String letter rest) ->
     let H := digitsValue 0 h in
     let M := digitsValue 0 mm in
     let text := before +:+ h +:+ ":" +:+ mm +:+ sp +:+ String letter rest in
     (isLetterCI "p" "P" letter = true ->
        parseTimeOfDay text
        = Return (initialize (Some 0) (Some (if H =? 12 then 12 else H + 12)) (Some M))) /\
     (isLetterCI "a" "A" letter = true ->
        parseTimeOfDay text
        = Return (initialize (Some 0) (Some (if H =? 12 then 0 else H)) (Some M)))) as Hmarked.
  { intros before h mm sp letter rest Hh Hlh Hmm Hlm Hsp Hfirst H M text.
    pose proof (parseTimeOfDay_first_clock before h mm (sp +:+ String letter rest)
                  Hh Hlh Hmm Hlm Hfirst) as E.
    split; intros Hletter.
    - rewrite markerOf_marker in E
        by (try assumption; unfold isMeridiemLetter; rewrite Hletter; apply orb_true_r).
      simpl in E. rewrite Hletter in E. exact E.
    - rewrite markerOf_marker in E
        by (try assumption; unfold isMeridiemLetter; now rewrite Hletter).
      simpl in E.
      assert (isLetterCI "p" "P" letter = false) as Hp.
      { unfold isLetterCI in *.
        apply orb_true_iff in Hletter as [E' | E']; apply Ascii.eqb_eq in E'; now subst. }
      rewrite Hp in E. exact E. }
  split; [exact parseTimeOfDay_first_clock|].
  split; [exact Hmarked|].
  split.
  { intros before h mm tail Hh Hlh Hmm Hlm Hfirst Hnone.
    rewrite (parseTimeOfDay_first_clock before h mm tail Hh Hlh Hmm Hlm Hfirst), Hnone.
    reflexivity. }
  split; [exact hasClockPattern_first|].
  split; [exact noClockInside_no_digit|].
  split.
  { intros h mm sp letter rest Hh Hlh Hmm Hlm Hsp.
    apply (Hmarked "" h mm sp letter rest Hh Hlh Hmm Hlm Hsp).
    apply noClockInside_no_digit. reflexivity. }
  split; [exact parseTimeOfDay_throws_iff|].
  split; [exact parseTimeOfDay_returns_iff|].
  repeat split; eexists; (split; [vm_compute; reflexivity|]); split; reflexivity.
Qed.

(** "at 7:05 PM": a prefix without digits, one digit for the hour, a space,
    the letter P and then M. *)
Lemma parseTimeOfDay_spec_witness :
  parseTimeOfDay "at 7:05 PM" = Return (initialize (Some 0) (Some 19) (Some 5)).
Proof.
  exact (proj1 parseTimeOfDay_spec "at " "7" "05" " PM"
    eq_refl (or_introl eq_refl) eq_refl eq_refl
    (proj1 (proj2 (proj2 (proj2 (proj2 parseTimeOfDay_spec)))) "at " _ eq_refl)).
Defined.

Lemma parseTimeOfDay_total_nonneg s t :
  parseTimeOfDay s = Return t -> 0 <= totalMinutes t.
Proof.
  intros Ht. destruct (search timeOfDayPattern s) as [m|] eqn:Hs.
  - destruct (parseTimeOfDay_found s m Hs) as (hh & mi & Hh & Hm & Heq).
    rewrite Heq in Ht. apply Return_inj in Ht. subst t.
    unfold initialize, totalMinutes, TimeSpan_get, MINUTES_PER_DAY, MINUTES_PER_HOUR. simpl. lia.
  - unfold parseTimeOfDay in Ht. rewrite Hs in Ht. discriminate.
Qed.

(** C10, as the claim states it, fails: the minute of the day of a parsed
    time never exceeds 1439. *)
Lemma parseTimeOfDay_minute_of_day_bounded :
  ~ exists s t, parseTimeOfDay s = Return t /\ 1439 < getMinutesOfDay t.
Proof.
  intros (s & t & Ht & Hlarge).
  pose proof (getMinutesOfDay_range t (parseTimeOfDay_total_nonneg s t Ht)). lia.
Qed.

(** C10, amended. [parseTimeOfDay] checks no range: a text of one or two
    digits, a colon and two digits is accepted whatever the numbers, and the
    total minutes of the result are 60 times the hour plus the minute; for
    "25:75" they are 1575, beyond 1439, and the day component is 1, while the
    minute of the day stays below 1440 (it is 135). *)
Theorem parseTimeOfDay_no_range_check :
  (forall h mm,
     allDigits h = true -> (String.length h = 1 \/ String.length h = 2)%nat ->
     allDigits mm = true -> String.length mm = 2%nat ->
     exists t, parseTimeOfDay (h +:+ ":" +:+ mm) = Return t /\
       getTotalMinutes t = 60 * digitsValue 0 h + digitsValue 0 mm) /\
  (exists t, parseTimeOfDay "25:75" = Return t /\
     getTotalMinutes t = 60 * 25 + 75 /\ 1439 < getTotalMinutes t /\
     getDays t = 1 /\ getMinutesOfDay t = 135) /\
  (forall s t, parseTimeOfDay s = Return t -> 0 <= getMinutesOfDay t <= 1439).
Proof.
  split; [|split].
  - intros h mm Hh Hlh Hmm Hlm.
    assert (Hhu : isUnsignedText h).
    { destruct Hlh; eapply isUnsignedText_of_length; eauto. }
    assert (Hmu : isUnsignedText mm) by (eapply isUnsignedText_of_length; eauto).
    destruct (timeOfDay_match_plain h mm Hh Hlh Hmm Hlm) as (m & Hs & H1 & H2 & H3).
    eexists. split.
    + exact (proj1 (parseTimeOfDay_of_groups _ m h mm Hs H1 H2 Hhu Hmu) H3).
    + unfold getTotalMinutes, totalMinutes, TimeSpan_get, initialize,
        MINUTES_PER_DAY, MINUTES_PER_HOUR. simpl. lia.
  - eexists. split; [vm_compute; reflexivity|]. repeat split.
  - intros s t Ht.
    pose proof (getMinutesOfDay_range t (parseTimeOfDay_total_nonneg s t Ht)). lia.
Qed.

(** "99:99" is accepted: 6039 minutes. *)
Lemma parseTimeOfDay_no_range_check_witness :
  exists t, parseTimeOfDay "99:99" = Return t /\ getTotalMinutes t = 6039.
Proof.
  exact (proj1 parseTimeOfDay_no_range_check "99" "99"
    eq_refl (or_intror eq_refl) eq_refl eq_refl).
Defined.

(** C9, as the claim states it, fails: a sign before the fourth integer is
    rejected, and no accepted text yields a negative fourth component; nor
    is a bracket pair part of the pattern. *)
Lemma parseTone_rejects_signed_gray :
  parseTone "(1, 2, 3, -4)" = Throw (Error "Tone parse error: (1, 2, 3, -4)") /\
  parseTone "(1, 2, 3, +4)" = Throw (Error "Tone parse error: (1, 2, 3, +4)") /\
  (~ exists s r g b gray, parseTone s = Return [r; g; b; gray] /\ gray < 0) /\
  parseTone "1 2 3 4" = Return [1; 2; 3; 4].
Proof.
  split; [vm_compute; reflexivity|]. split; [vm_compute; reflexivity|].
  split; [|vm_compute; reflexivity].
  intros (s & r & g & b & gray & Ht & Hneg).
  apply parseTone_gray_nonneg in Ht as (r' & g' & b' & gray' & [= -> -> -> ->] & Hpos).
  lia.
Qed.

(** C9, amended. [parseTone] matches four integers separated by commas or
    spaces, the first three with an optional minus sign and the fourth
    without a sign, brackets or not; it throws exactly when that pattern
    occurs nowhere in the text and returns the four numbers otherwise, the
    fourth never negative; [parseTone("(-68, -68, -14, 41)")] returns
    [[-68, -68, -14, 41]]. *)
Theorem parseTone_spec :
  (forall s,
     parseTone s = Throw (Error ("Tone parse error: " +:+ s)) <-> ~ hasTonePattern s) /\
  (forall s, returns (parseTone s) <-> hasTonePattern s) /\
  (forall s tone, parseTone s = Return tone ->
     exists r g b gray, tone = [r; g; b; gray] /\ 0 <= gray) /\
  parseTone "(-68, -68, -14, 41)" = Return [-68; -68; -14; 41].
Proof.
  split; [exact parseTone_throws_iff|].
  split; [exact parseTone_returns_iff|].
  split; [exact parseTone_gray_nonneg|].
  vm_compute. reflexivity.
Qed.

(** The text "1 2 3 4" has the pattern, so it is parsed. *)
Lemma parseTone_spec_witness : returns (parseTone "1 2 3 4").
Proof.
  apply (proj1 (proj2 parseTone_spec)).
  exists "", "1", " ", "2", " ", "3", " ", "4", "".
  split; [reflexivity|].
  repeat match goal with |- _ /\ _ => split end;
    try (left; split; [reflexivity | discriminate]);
    split; try reflexivity; discriminate.
Defined.

(** ** Clock fields, texts and sums of durations *)

Lemma fields_of_minute_of_day (m : Z) :
  0 <= m ->
  Z.rem (Z.rem m 1440 / 60) 24 = Z.rem (m / 60) 24 /\
  Z.rem (Z.rem m 1440) 60 = Z.rem m 60.
Proof.
  intros Hm.
  pose proof (Z.div_mod m 1440 ltac:(lia)) as E.
  pose proof (Z.mod_pos_bound m 1440 ltac:(lia)) as B.
  rewrite (Z.rem_mod_nonneg m 1440) by lia.
  assert (0 <= m mod 1440 / 60) by (apply Z.div_pos; lia).
  assert (0 <= m / 60) by (apply Z.div_pos; lia).
  rewrite !Z.rem_mod_nonneg by lia.
  assert (m = m mod 1440 + (m / 1440 * 24) * 60) as E' by lia.
  split.
  - rewrite E' at 2. rewrite Z.div_add by lia.
    rewrite Z.mod_add by lia. reflexivity.
  - rewrite E' at 2. rewrite Z.mod_add by lia. reflexivity.
Qed.

(** X3.  For a time value of zero or more minutes, the fields read as a
    clock: the minutes lie in 0..59, the hours in 0..23, the days are not
    negative, the total hours are 24 times the days plus the hours, and
    60 times the total hours plus the minutes give back the total. *)
Theorem TimeSpan_fields_in_range {O} `{TotalMinutesGet O} (this : O) :
  0 <= totalMinutes this ->
  0 <= getMinutes this < 60 /\
  0 <= getHours this < 24 /\
  0 <= getDays this /\
  getTotalHours this = getDays this * 24 + getHours this /\
  getTotalHours this * 60 + getMinutes this = getTotalMinutes this.
Proof.
  intros Hm.
  unfold getMinutes, getHours, getDays, getTotalHours, getTotalMinutes,
    MINUTES_PER_DAY, MINUTES_PER_HOUR, HOURS_PER_DAY.
  change (60 * 24) with 1440.
  set (m := totalMinutes this) in *.
  assert (0 <= m / 60) by (apply Z.div_pos; lia).
  rewrite !Z.rem_mod_nonneg by lia.
  pose proof (Z.mod_pos_bound m 60 ltac:(lia)).
  pose proof (Z.mod_pos_bound (m / 60) 24 ltac:(lia)).
  pose proof (Z.div_mod m 60 ltac:(lia)).
  pose proof (Z.div_mod (m / 60) 24 ltac:(lia)).
  assert (m / 1440 = m / 60 / 24) as E
    by (rewrite Z.div_div by lia; reflexivity).
  assert (0 <= m / 1440) by (apply Z.div_pos; lia).
  repeat match goal with |- _ /\ _ => split end; lia.
Qed.

Lemma TimeSpan_fields_in_range_witness :
  let t := initialize (Some 2) (Some 23) (Some 59) in
  0 <= getMinutes t < 60 /\
  0 <= getHours t < 24 /\
  0 <= getDays t /\
  getTotalHours t = getDays t * 24 + getHours t /\
  getTotalHours t * 60 + getMinutes t = getTotalMinutes t.
Proof.
  apply (TimeSpan_fields_in_range (initialize (Some 2) (Some 23) (Some 59))).
  vm_compute. discriminate.
Defined.

(** X4.  For a time value below zero the remainders take the sign of the
    total while the days are rounded down: minutes and hours are zero or
    negative, the days are negative, and unless the total is a whole number
    of days, days and minute of the day add up to one day less than the
    total. *)
Theorem TimeSpan_negative_total {O} `{TotalMinutesGet O} (this : O) :
  totalMinutes this < 0 ->
  -60 < getMinutes this <= 0 /\
  -24 < getHours this <= 0 /\
  -1440 < getMinutesOfDay this <= 0 /\
  getDays this < 0 /\
  (getMinutesOfDay this <> 0 ->
   getDays this * 1440 + getMinutesOfDay this = getTotalMinutes this - 1440).
Proof.
  intros Hm.
  unfold getMinutes, getHours, getDays, getMinutesOfDay, getTotalMinutes,
    MINUTES_PER_DAY, MINUTES_PER_HOUR, HOURS_PER_DAY.
  change (60 * 24) with 1440.
  set (m := totalMinutes this) in *.
  pose proof (Z.rem_bound_pos_neg m 60 ltac:(lia) ltac:(lia)).
  pose proof (Z.rem_bound_pos_neg m 1440 ltac:(lia) ltac:(lia)).
  assert (m / 60 < 0) by (apply Z.div_lt_upper_bound; lia).
  pose proof (Z.rem_bound_pos_neg (m / 60) 24 ltac:(lia) ltac:(lia)).
  assert (m / 1440 < 0) by (apply Z.div_lt_upper_bound; lia).
  repeat match goal with |- _ /\ _ => split end; try lia.
  intros Hr.
  pose proof (Z.quot_rem' m 1440) as Q.
  pose proof (Z.div_mod m 1440 ltac:(lia)) as D.
  pose proof (Z.mod_pos_bound m 1440 ltac:(lia)) as B.
  assert (m mod 1440 = Z.rem m 1440 + 1440) as E.
  { symmetry. apply (Z.mod_unique m 1440 (m ÷ 1440 - 1)); lia. }
  lia.
Qed.

Lemma TimeSpan_negative_total_witness :
  let t := {| _totalMinutes := -1 |} in
  getMinutes t = -1 /\ getHours t = -1 /\ getDays t = -1 /\
  getDays t * 1440 + getMinutesOfDay t = getTotalMinutes t - 1440.
Proof.
  assert (totalMinutes {| _totalMinutes := -1 |} < 0) as Hm by reflexivity.
  destruct (TimeSpan_negative_total {| _totalMinutes := -1 |} Hm) as (_ & _ & _ & _ & E).
  split; [reflexivity|]. split; [reflexivity|]. split; [reflexivity|].
  apply E. vm_compute. discriminate.
Defined.

Lemma toString_minute_of_day {O} `{TotalMinutesGet O} (this : O) :
  0 <= totalMinutes this ->
  toString this = toString {| _totalMinutes := getMinutesOfDay this |}.
Proof.
  intros Hm. unfold toString, getHours, getMinutes, getMinutesOfDay,
    MINUTES_PER_DAY, MINUTES_PER_HOUR, HOURS_PER_DAY.
  change (60 * 24) with 1440.
  change (totalMinutes {| _totalMinutes := ?x |}) with x.
  destruct (fields_of_minute_of_day (totalMinutes this) Hm) as [-> ->].
  reflexivity.
Qed.

Lemma clockRoundTrip_all :
  forallb (fun n => clockRoundTrip (Z.of_nat n)) (seq 0 1440) = true.
Proof. vm_compute. reflexivity. Qed.

Lemma clockRoundTrip_minute_of_day (m : Z) :
  0 <= m < 1440 -> clockRoundTrip m = true.
Proof.
  intros Hm.
  pose proof clockRoundTrip_all as A.
  rewrite forallb_forall in A.
  specialize (A (Z.to_nat m)).
  rewrite Z2Nat.id in A by lia.
  apply A, in_seq. lia.
Qed.

(** X5.  The text of a time value of zero or more minutes has five
    characters, and [parseTimeOfDay] reads it back as the minute of the day
    of that value: the days are dropped, hours and minutes survive. *)
Theorem toString_parseTimeOfDay {O} `{TotalMinutesGet O} (this : O) :
  0 <= totalMinutes this ->
  String.length (toString this) = 5%nat /\
  parseTimeOfDay (toString this) = Return {| _totalMinutes := getMinutesOfDay this |}.
Proof.
  intros Hm.
  rewrite (toString_minute_of_day this Hm).
  pose proof (clockRoundTrip_minute_of_day _ (getMinutesOfDay_range this Hm)) as R.
  unfold clockRoundTrip in R.
  destruct (parseTimeOfDay _) as [[t]| |]; try discriminate.
  apply andb_true_iff in R as [Ht Hl].
  apply Z.eqb_eq in Ht. apply Nat.eqb_eq in Hl.
  simpl in Ht. subst t. split; [exact Hl | reflexivity].
Qed.

Lemma toString_parseTimeOfDay_witness :
  toString (initialize (Some 3) (Some 7) (Some 5)) = "07:05" /\
  parseTimeOfDay "07:05" = Return (initialize None (Some 7) (Some 5)).
Proof.
  assert (0 <= totalMinutes (initialize (Some 3) (Some 7) (Some 5))) as Hm
    by (vm_compute; discriminate).
  split; [reflexivity|].
  exact (proj2 (toString_parseTimeOfDay (initialize (Some 3) (Some 7) (Some 5)) Hm)).
Defined.

(** X6.  [setForwardTo] is idempotent on time values that are not negative:
    once the clock stands at the target time of day, a second call with the
    same target adds nothing (it does not skip a day). *)
Theorem setForwardTo_idempotent (this timeOfDay t : TimeSpan) :
  0 <= totalMinutes this -> 0 <= totalMinutes timeOfDay ->
  setForwardTo timeOfDay this = Return t ->
  getMinutesOfDay t = getMinutesOfDay timeOfDay /\
  setForwardTo timeOfDay t = Return t.
Proof.
  intros Hthis Htod Hset.
  unfold setForwardTo, set_totalMinutes, TimeSpan_set in *.
  apply Return_inj in Hset. subst t.
  pose proof (getMinutesOfDay_range this Hthis) as B1.
  pose proof (getMinutesOfDay_range timeOfDay Htod) as B2.
  assert (0 <= forwardDifference this timeOfDay) as Hd.
  { unfold forwardDifference, MINUTES_PER_DAY, MINUTES_PER_HOUR, HOURS_PER_DAY.
    destruct (Z.ltb_spec (getMinutesOfDay timeOfDay - getMinutesOfDay this) 0); lia. }
  assert (getMinutesOfDay {| _totalMinutes := totalMinutes this + forwardDifference this timeOfDay |}
          = getMinutesOfDay timeOfDay) as E.
  { rewrite (getMinutesOfDay_add this _ Hthis Hd).
    unfold forwardDifference, MINUTES_PER_DAY, MINUTES_PER_HOUR, HOURS_PER_DAY.
    change (60 * 24) with 1440.
    destruct (Z.ltb_spec (getMinutesOfDay timeOfDay - getMinutesOfDay this) 0).
    - replace (getMinutesOfDay this + (getMinutesOfDay timeOfDay - getMinutesOfDay this + 1440))
        with (getMinutesOfDay timeOfDay + 1 * 1440) by lia.
      rewrite Z.mod_add by lia. apply Z.mod_small. lia.
    - replace (getMinutesOfDay this + (getMinutesOfDay timeOfDay - getMinutesOfDay this))
        with (getMinutesOfDay timeOfDay) by lia.
      apply Z.mod_small. lia. }
  split; [exact E|].
  f_equal. f_equal.
  change (totalMinutes {| _totalMinutes := ?x |}) with x.
  unfold forwardDifference at 2. rewrite E, Z.sub_diag. simpl. lia.
Qed.

Lemma setForwardTo_idempotent_witness :
  setForwardTo (initialize None (Some 8) None) (initialize None (Some 22) None)
  = Return (initialize (Some 1) (Some 8) None) /\
  setForwardTo (initialize None (Some 8) None) (initialize (Some 1) (Some 8) None)
  = Return (initialize (Some 1) (Some 8) None).
Proof.
  assert (setForwardTo (initialize None (Some 8) None) (initialize None (Some 22) None)
          = Return (initialize (Some 1) (Some 8) None)) as E by reflexivity.
  split; [exact E|].
  apply (setForwardTo_idempotent (initialize None (Some 22) None)
           (initialize None (Some 8) None) (initialize (Some 1) (Some 8) None)).
  - vm_compute. discriminate.
  - vm_compute. discriminate.
  - exact E.
Defined.

Lemma addAll_TimeSpan (durations : list Z) : forall this : TimeSpan,
  addAll durations this
  = Return {| _totalMinutes := totalMinutes this + fold_right Z.add 0 durations |}.
Proof.
  induction durations as [|d l IH]; intros [m]; unfold addAll in *; simpl.
  - f_equal. f_equal. unfold totalMinutes, TimeSpan_get. simpl. lia.
  - unfold addMinutes at 1, set_totalMinutes at 1, TimeSpan_set at 1.
    cbn [mbind outcome_bind]. rewrite IH. f_equal. f_equal.
    unfold totalMinutes, TimeSpan_get. simpl. lia.
Qed.

(** X7.  Additions on plain time values: a run of [addMinutes] calls adds
    the sum of its durations, so the total never decreases when no duration
    is negative; [add] leaves in place the value that [plus] returns as a
    new time value, and the order of the operands of [plus] does not
    matter. *)
Theorem TimeSpan_additions (this other : TimeSpan) (durations : list Z) :
  (exists t, addAll durations this = Return t /\
     totalMinutes t = totalMinutes this + fold_right Z.add 0 durations /\
     (Forall (fun d => 0 <= d) durations -> totalMinutes this <= totalMinutes t)) /\
  add other this = Return (plus this other) /\
  plus this other = plus other this /\
  totalMinutes (plus this other) = totalMinutes this + totalMinutes other.
Proof.
  split; [|split; [|split]].
  - eexists. split; [apply addAll_TimeSpan|]. split; [reflexivity|].
    intros Hall. change (totalMinutes {| _totalMinutes := ?x |}) with x.
    assert (0 <= fold_right Z.add 0 durations); [|lia].
    induction Hall; simpl; lia.
  - reflexivity.
  - unfold plus, initialize. simpl. f_equal. lia.
  - unfold plus. rewrite initialize_minutes. reflexivity.
Qed.

(** ** What a completed time change leaves behind *)











(** ** The wrappers around the engine *)





Lemma getOutsideTone_installed {O} `{TotalMinutesGet O} Parameters McK (this : O) :
  installed Parameters McK ->
  exists tone, onText parseTone (Parameters !! "Night Tone") = Return tone /\
    getOutsideTone McK this = Return (toneValue tone).
Proof.
  intros Hin. destruct (Param_get_NightTone Parameters McK Hin) as (tone & Htone & Hnight).
  exists tone. split; [assumption|]. unfold getOutsideTone.
  rewrite (Param_get_unassigned Parameters McK "DawnStartTimeAsMinutes" Hin eq_refl).
  rewrite (Param_get_unassigned Parameters McK "DawnEndTimeAsMinutes" Hin eq_refl).
  rewrite (Param_get_unassigned Parameters McK "DuskStartTimeAsMinutes" Hin eq_refl).
  rewrite (Param_get_unassigned Parameters McK "DuskEndTimeAsMinutes" Hin eq_refl).
  exact Hnight.
Qed.

(** X13.  [applyLightingPreset] compares the preset name with the outdoor
    keyword as it is written, while the tone is resolved from its lower-case
    form.  On a name space as the script leaves it, a non-empty name whose
    lower-case form is the outdoor keyword gets the outside tone and one
    [startTint] call with the duration (0 when left out), but [isOutside]
    is true only when the name is written exactly as the stored (lower-case)
    keyword. *)
Theorem applyLightingPreset_outside {O} `{TotalMinutesGet O}
    Parameters McK (cycle : O) (text : string) (duration : option Z) (this : Lighting) :
  installed Parameters McK ->
  text <> "" ->
  toLowerCase text = outdoorKeyword Parameters ->
  exists tone,
    getOutsideTone McK cycle = Return (toneValue tone) /\
    applyLightingPreset McK cycle (VString text) duration this
    = Return {| lightingType := VString text;
                isOutside := String.eqb text (outdoorKeyword Parameters);
                mapTone := toneValue tone;
                startTint := (toneValue tone, default 0 duration) :: startTint this |}.
Proof.
  intros Hin Hne Hlower.
  destruct (getOutsideTone_installed Parameters McK cycle Hin) as (tone & _ & Htone).
  exists tone. split; [exact Htone|].
  unfold applyLightingPreset, getToneByKeyword.
  rewrite (Param_get_OutdoorLightingKeyword Parameters McK Hin).
  assert (truthy (VString text) = true) as ->.
  { simpl. destruct (String.eqb_spec text ""); [contradiction | reflexivity]. }
  cbn [mbind outcome_bind mret outcome_ret js_eq].
  rewrite Hlower, String.eqb_refl, Htone.
  cbn [mbind outcome_bind mret outcome_ret].
  destruct tone; reflexivity.
Qed.

Lemma applyLightingPreset_outside_witness :
  exists tone,
    getOutsideTone defaultNameSpace (initialize None (Some 12) None)
    = Return (toneValue tone) /\
    applyLightingPreset defaultNameSpace (initialize None (Some 12) None)
      (VString "Outside") None
      {| lightingType := VUndefined; isOutside := true; mapTone := VUndefined; startTint := [] |}
    = Return {| lightingType := VString "Outside";
                isOutside := false;
                mapTone := toneValue tone;
                startTint := [(toneValue tone, 0)] |}.
Proof.
  apply (applyLightingPreset_outside defaultParameters defaultNameSpace
           (initialize None (Some 12) None) "Outside" None
           {| lightingType := VUndefined; isOutside := true; mapTone := VUndefined;
              startTint := [] |} installed_default).
  - discriminate.
  - vm_compute. reflexivity.
Defined.

(** ** Durations *)

Lemma anyOf_allOf p q (t : string) :
  (forall a, q a = true -> p a = false) -> allOf q t = true -> anyOf p t = false.
Proof.
  intros Hpq. induction t as [|a t IH]; [reflexivity|].
  simpl. intros [Ha Ht]%andb_true_iff. now rewrite (Hpq a Ha), IH.
Qed.

Lemma allOf_anyOf p (t u : string) a :
  allOf p (t +:+ String a u) = true -> p a = true.
Proof.
  rewrite allOf_append. simpl. intros [_ [Ha _]%andb_true_iff]%andb_true_iff. exact Ha.
Qed.

(** Two ways of cutting one text. *)
Lemma append_eq_append (x : string) : forall y u v,
  x +:+ y = u +:+ v ->
  exists w, (x = u +:+ w /\ v = w +:+ y) \/ (u = x +:+ w /\ y = w +:+ v).
Proof.
  induction x as [|a x IH]; intros y u v E.
  - exists u. right. rewrite !append_empty_l in *. auto.
  - destruct u as [|b u].
    + exists (String a x). left. rewrite append_empty_l in E. auto.
    + rewrite !append_cons in E. injection E as -> E.
      destruct (IH _ _ _ E) as (w & [[-> ->] | [-> ->]]); exists w; auto.
Qed.

Lemma endsWithDigit_cons b (pre : string) :
  endsWithDigit (String b pre) = false -> endsWithDigit pre = false.
Proof. destruct pre; [reflexivity | auto]. Qed.

Lemma endsWithDigit_last (pre : string) b :
  endsWithDigit (String b pre) = false ->
  exists front c, String b pre = front +:+ String c "" /\ isDigit c = false.
Proof.
  revert b. induction pre as [|a pre IH]; intros b H.
  - exists "", b. auto.
  - destruct (IH a H) as (front & c & E & Hc).
    exists (String b front), c. rewrite append_cons, <- E. auto.
Qed.

Section Unit.
Variables lower upper : ascii.
Hypothesis unit_not_digit : forall a, isDigit a = true -> isLetterCI lower upper a = false.
Hypothesis unit_not_space : isLetterCI lower upper " " = false.

Lemma unit_matches_inv t c :
  matches (unitPattern lower upper) t ∅ c ->
  exists n sp a,
    t = n +:+ sp +:+ String a "" /\ isUnsignedText n /\ (sp = "" \/ sp = " ") /\
    isLetterCI lower upper a = true /\ c !! 1%nat = Some n.
Proof.
  unfold unitPattern. intros H. invert_matches.
  all: match goal with
       | Hn : allOf isDigit ?n = true |- context [?n +:+ ?sp +:+ String ?a ""] =>
           exists n, sp, a
       end.
  all: repeat match goal with |- _ /\ _ => split end;
    try reflexivity; try assumption;
    try (split; [assumption | eapply nonempty_of_length; eassumption]).
  all: try (right; match goal with
                   | Hc : isChar " " ?a = true |- _ => apply isChar_eq in Hc; now subst a
                   end).
  all: try (left; reflexivity).
Qed.

Lemma unit_letter_occurs s m :
  search (unitPattern lower upper) s = Some m -> anyOf (isLetterCI lower upper) s = true.
Proof.
  intros (before & -> & Hm)%search_sound.
  apply unit_matches_inv in Hm as (n & sp & a & -> & _ & _ & Ha & _).
  rewrite !anyOf_append. simpl. rewrite Ha. now rewrite !orb_true_r.
Qed.

Lemma unitCount_returns s :
  exists n, unitCount lower upper s = Return (Some n) /\ 0 <= n /\
    (anyOf (isLetterCI lower upper) s = false -> n = 0).
Proof.
  unfold unitCount. destruct (search _ s) as [m|] eqn:Hs.
  - pose proof (unit_letter_occurs s m Hs) as Hl.
    apply search_sound in Hs as (before & _ & Hm).
    apply unit_matches_inv in Hm as (n & sp & a & _ & Hn & _ & _ & H1).
    exists (digitsValue 0 n). unfold NumberOfGroup. rewrite H1.
    split; [apply Number_digits, Hn|].
    split; [apply digitsValue_nonneg; [apply Hn | lia] | congruence].
  - exists 0. auto with zarith.
Qed.

Lemma unit_match_here n sp a rest :
  isUnsignedText n -> sp = "" \/ sp = " " -> isLetterCI lower upper a = true ->
  exists m,
    matchHere (unitPattern lower upper) (n +:+ sp +:+ String a rest) = Some m /\
    groups m !! 1%nat = Some n.
Proof.
  intros [Hn Hne] Hsp Ha.
  assert (isDigit a = false) as Hda.
  { destruct (isDigit a) eqn:E; [|reflexivity].
    rewrite (unit_not_digit a E) in Ha. discriminate. }
  assert (isChar " " a = false) as Hsa.
  { destruct (isChar " " a) eqn:E; [|reflexivity].
    apply isChar_eq in E. subst a. rewrite unit_not_space in Ha. discriminate. }
  assert (1 <= String.length n)%nat as Hlen by (destruct n; [contradiction | simpl; lia]).
  destruct Hsp as [-> | ->].
  - eexists. split.
    { unfold matchHere, unitPattern. run_step. rewrite append_empty_l.
      apply repeatClass_greedy; [exact Hn | exact Hlen | discriminate | left; exact Hda |].
      rewrite taken_append. run_step.
      rewrite run_Opt_always by (apply run_Class_false; exact Hsa).
      rewrite run_Class_true by exact Ha. reflexivity. }
    simpl. apply lookup_insert_eq.
  - eexists. split.
    { unfold matchHere, unitPattern. run_step.
      change (" " +:+ String a rest) with (String " " (String a rest)).
      apply repeatClass_greedy; [exact Hn | exact Hlen | discriminate | left; reflexivity |].
      rewrite taken_append. run_step.
      erewrite run_Opt_first; [reflexivity|].
      rewrite run_Class_true by reflexivity.
      rewrite run_Class_true by exact Ha. reflexivity. }
    simpl. apply lookup_insert_eq.
Qed.

Lemma unit_no_match_inside b pre n sp a rest :
  anyOf (isLetterCI lower upper) (String b pre) = false ->
  endsWithDigit (String b pre) = false ->
  isUnsignedText n -> sp = "" \/ sp = " " ->
  matchHere (unitPattern lower upper) (String b pre +:+ n +:+ sp +:+ String a rest) = None.
Proof.
  intros Hpre Hend [Hn Hne] Hsp.
  destruct (matchHere _ _) as [m|] eqn:Hm; [exfalso | reflexivity].
  apply matchHere_sound in Hm as [E Hm].
  apply unit_matches_inv in Hm as (n' & sp' & a' & Et & [Hn' _] & Hsp' & Ha' & _).
  rewrite Et in E. clear Et.
  assert (anyOf (isLetterCI lower upper) (String b pre +:+ n +:+ sp) = false) as Hq.
  { rewrite !anyOf_append, Hpre, (anyOf_allOf _ _ n unit_not_digit Hn).
    destruct Hsp as [-> | ->]; simpl; [reflexivity|].
    now rewrite unit_not_space. }
  assert (exists w, n' +:+ sp' = String b pre +:+ n +:+ sp +:+ w) as (w & Ew).
  { replace (String b pre +:+ n +:+ sp +:+ String a rest)
      with ((String b pre +:+ n +:+ sp) +:+ String a rest) in E
      by (now rewrite <- !append_assoc).
    replace ((n' +:+ sp' +:+ String a' "") +:+ after m)
      with ((n' +:+ sp') +:+ String a' (after m)) in E
      by (now rewrite <- !append_assoc).
    apply append_eq_append in E as (w & [[E1 E2] | [E1 E2]]).
    - destruct w as [|a'' w].
      + exists "". rewrite append_empty_r in E1. now rewrite append_empty_r.
      + rewrite append_cons in E2. injection E2 as <- _.
        rewrite E1, !anyOf_append in Hq. simpl in Hq. rewrite Ha' in Hq.
        rewrite !orb_true_r in Hq. discriminate.
    - exists w. rewrite E1. now rewrite <- !append_assoc. }
  destruct (endsWithDigit_last pre b Hend) as (front & c & Ef & Hc).
  rewrite Ef in Ew.
  replace ((front +:+ String c "") +:+ n +:+ sp +:+ w)
    with (front +:+ String c (n +:+ sp +:+ w)) in Ew
    by (now rewrite <- !append_assoc).
  assert (2 <= String.length (String c (n +:+ sp +:+ w)))%nat as Hlong.
  { simpl. rewrite length_append. destruct n; [contradiction | simpl; lia]. }
  assert (String.length sp' <= 1)%nat as Hshort by (destruct Hsp' as [-> | ->]; simpl; lia).
  apply append_eq_append in Ew as (w2 & [[E1 E2] | [E1 E2]]).
  - destruct w2 as [|c' w2].
    + rewrite append_empty_l in E2. rewrite <- E2 in Hshort. lia.
    + rewrite append_cons in E2. injection E2 as <- _.
      rewrite E1 in Hn'. apply allOf_anyOf in Hn'. congruence.
  - rewrite E2, length_append in Hshort. lia.
Qed.

Lemma unit_search_first pre : forall n sp a rest,
  anyOf (isLetterCI lower upper) pre = false ->
  endsWithDigit pre = false ->
  isUnsignedText n -> sp = "" \/ sp = " " -> isLetterCI lower upper a = true ->
  exists m,
    search (unitPattern lower upper) (pre +:+ n +:+ sp +:+ String a rest) = Some m /\
    groups m !! 1%nat = Some n.
Proof.
  induction pre as [|b pre IH]; intros n sp a rest Hpre Hend Hn Hsp Ha.
  - rewrite append_empty_l.
    destruct (unit_match_here n sp a rest Hn Hsp Ha) as (m & Hm & Hg).
    exists m. split; [apply search_here, Hm | exact Hg].
  - pose proof (unit_no_match_inside b pre n sp a rest Hpre Hend Hn Hsp) as Hno.
    rewrite append_cons in *. simpl. 
    rewrite Hno. apply IH; try assumption.
    + simpl in Hpre. now apply orb_false_iff in Hpre as [_ ?].
    + now apply endsWithDigit_cons in Hend.
Qed.

Lemma unitCount_first_token pre n sp a rest :
  anyOf (isLetterCI lower upper) pre = false ->
  endsWithDigit pre = false ->
  isUnsignedText n -> sp = "" \/ sp = " " -> isLetterCI lower upper a = true ->
  unitCount lower upper (pre +:+ n +:+ sp +:+ String a rest)
  = Return (Some (digitsValue 0 n)).
Proof.
  intros Hpre Hend Hn Hsp Ha.
  destruct (unit_search_first pre n sp a rest Hpre Hend Hn Hsp Ha) as (m & Hm & Hg).
  unfold unitCount, NumberOfGroup. rewrite Hm, Hg. apply Number_digits, Hn.
Qed.
End Unit.

Lemma letter_not_digit lower upper :
  isDigit lower = false -> isDigit upper = false ->
  forall a, isDigit a = true -> isLetterCI lower upper a = false.
Proof.
  intros Hl Hu a Ha. unfold isLetterCI.
  destruct (Ascii.eqb_spec a lower) as [->|]; [congruence|].
  destruct (Ascii.eqb_spec a upper) as [->|]; [congruence|].
  reflexivity.
Qed.

Lemma unitCount_reading lower upper s v :
  isDigit lower = false -> isDigit upper = false ->
  isLetterCI lower upper " " = false ->
  unitReading lower upper s v -> unitCount lower upper s = Return (Some v).
Proof.
  intros Hl Hu Hsp [[Hno ->] | (n & (pre & sp & a & rest & -> & Hpre & Hend & Hn & Hs & Ha) & ->)].
  - destruct (unitCount_returns lower upper s) as (n & E & _ & H0).
    rewrite E, (H0 Hno). reflexivity.
  - apply unitCount_first_token; auto using letter_not_digit.
Qed.

(** X14.  [parseTimeSpan] returns for every text, with counts that are not
    negative; a unit whose letter (in either case) is nowhere in the text
    counts 0, so a text without the letters d, h and m is the empty
    duration. *)
Theorem parseTimeSpan_always_returns (s : string) :
  exists days hours minutes,
    parseTimeSpan s = Return (initialize (Some days) (Some hours) (Some minutes)) /\
    0 <= days /\ 0 <= hours /\ 0 <= minutes /\
    (anyOf (isLetterCI "d" "D") s = false -> days = 0) /\
    (anyOf (isLetterCI "h" "H") s = false -> hours = 0) /\
    (anyOf (isLetterCI "m" "M") s = false -> minutes = 0).
Proof.
  destruct (unitCount_returns "d" "D" s) as (d & Ed & Hd & Hd0).
  destruct (unitCount_returns "h" "H" s) as (h & Eh & Hh & Hh0).
  destruct (unitCount_returns "m" "M" s) as (m & Em & Hm & Hm0).
  exists d, h, m. unfold parseTimeSpan. rewrite Ed, Eh, Em.
  repeat match goal with |- _ /\ _ => split end; auto.
Qed.

(** X15.  Each unit of a duration is read on its own, wherever its token
    stands: the days are the number of the first token with the letter d,
    the hours that of the first token with h, the minutes that of the first
    token with m (letters in either case, at most one space before them),
    and 0 for a unit without a letter in the text. *)
Theorem parseTimeSpan_tokens (s : string) (days hours minutes : Z) :
  unitReading "d" "D" s days ->
  unitReading "h" "H" s hours ->
  unitReading "m" "M" s minutes ->
  parseTimeSpan s = Return (initialize (Some days) (Some hours) (Some minutes)) /\
  getTotalMinutes (initialize (Some days) (Some hours) (Some minutes))
  = days * 1440 + hours * 60 + minutes.
Proof.
  intros Hd Hh Hm. split; [|reflexivity].
  unfold parseTimeSpan.
  rewrite (unitCount_reading "d" "D" s days eq_refl eq_refl eq_refl Hd).
  rewrite (unitCount_reading "h" "H" s hours eq_refl eq_refl eq_refl Hh).
  rewrite (unitCount_reading "m" "M" s minutes eq_refl eq_refl eq_refl Hm).
  reflexivity.
Qed.

Lemma parseTimeSpan_tokens_witness :
  parseTimeSpan "30 m 1D" = Return (initialize (Some 1) (Some 0) (Some 30)) /\
  getTotalMinutes (initialize (Some 1) (Some 0) (Some 30)) = 1470.
Proof.
  apply (parseTimeSpan_tokens "30 m 1D" 1 0 30).
  - right. exists "1". split; [|reflexivity].
    exists "30 m ", "", "D"%char, "".
    repeat match goal with |- _ /\ _ => split end;
      try reflexivity; try discriminate;
      try (split; [reflexivity | discriminate]); left; reflexivity.
  - left. split; reflexivity.
  - right. exists "30". split; [|reflexivity].
    exists "", " ", "m"%char, " 1D".
    repeat match goal with |- _ /\ _ => split end;
      try reflexivity; try discriminate;
      try (split; [reflexivity | discriminate]); right; reflexivity.
Defined.

(** ** Lists of tones *)

Lemma toneList_no_bracket (s : string) :
  anyOf isOpenBracket s = false -> search toneListPattern s = None.
Proof.
  induction s as [|a s IH]; [reflexivity|].
  simpl. intros [Ha Hs]%orb_false_iff.
  unfold matchHere, toneListPattern. run_step.
  rewrite run_Class_false by exact Ha. exact (IH Hs).
Qed.

Lemma closeBracket_not_toneChar c : isCloseBracket c = true -> isToneChar c = false.
Proof.
  unfold isCloseBracket.
  intros [[H | H]%orb_true_iff | H]%orb_true_iff; apply isChar_eq in H; subst c; reflexivity.
Qed.

Lemma toneList_match_here o body c rest :
  isOpenBracket o = true -> allOf isToneChar body = true -> body <> "" ->
  isCloseBracket c = true ->
  exists m,
    matchHere toneListPattern (String o (body +:+ String c rest)) = Some m /\
    matched m = String o (body +:+ String c "") /\ after m = rest.
Proof.
  intros Ho Hbody Hne Hc.
  assert (1 <= String.length body)%nat as Hlen by (destruct body; [contradiction | simpl; lia]).
  eexists. split.
  { unfold matchHere, toneListPattern. run_step.
    rewrite run_Class_true by exact Ho. run_step.
    apply repeatClass_greedy;
      [exact Hbody | exact Hlen | discriminate
      | left; apply closeBracket_not_toneChar, Hc |].
    rewrite run_Class_true by exact Hc. reflexivity. }
  simpl. split; [|reflexivity].
  replace (String o (body +:+ String c rest))
    with (String o (body +:+ String c "") +:+ rest).
  - apply taken_append.
  - rewrite append_cons, <- append_assoc. reflexivity.
Qed.

Lemma toneList_search_first pre : forall o body c rest,
  anyOf isOpenBracket pre = false ->
  isOpenBracket o = true -> allOf isToneChar body = true -> body <> "" ->
  isCloseBracket c = true ->
  exists m,
    search toneListPattern (pre +:+ String o (body +:+ String c rest)) = Some m /\
    matched m = String o (body +:+ String c "") /\ after m = rest.
Proof.
  induction pre as [|a pre IH]; intros o body c rest Hpre Ho Hbody Hne Hc.
  - rewrite append_empty_l.
    destruct (toneList_match_here o body c rest Ho Hbody Hne Hc) as (m & Hm & H).
    exists m. split; [apply search_here, Hm | exact H].
  - simpl in Hpre. apply orb_false_iff in Hpre as [Ha Hpre].
    rewrite append_cons. simpl.
    unfold matchHere at 1, toneListPattern at 1. run_step.
    rewrite run_Class_false by exact Ha.
    apply IH; assumption.
Qed.

(** The matches of a global search do not depend on the bound of the
    recursion, once it exceeds the length of the text. *)
Lemma matchAll_fuel r : forall f1 f2 s,
  (String.length s < f1)%nat -> (String.length s < f2)%nat ->
  matchAll f1 r s = matchAll f2 r s.
Proof.
  induction f1 as [|f1 IH]; intros f2 s H1 H2; [lia|].
  destruct f2 as [|f2]; [lia|].
  simpl. destruct (search r s) as [m|] eqn:Hs; [|reflexivity].
  apply search_sound in Hs as (before & E & _).
  assert (String.length s
          = String.length before + String.length (matched m) + String.length (after m))%nat
    as Hlen by (rewrite E at 1; rewrite !length_append; lia).
  f_equal.
  destruct (matched m) as [|a t] eqn:Hm, (after m) as [|b u] eqn:Ha; try reflexivity.
  all: apply IH; simpl in *; lia.
Qed.

Lemma matchGlobal_first r s m :
  search r s = Some m -> matched m <> "" ->
  matchGlobal r s = matched m :: matchGlobal r (after m).
Proof.
  intros Hs Hne. unfold matchGlobal.
  pose proof Hs as (before & E & _)%search_sound.
  assert (String.length (after m) < String.length s)%nat as Hlen.
  { rewrite E, !length_append.
    destruct (matched m); [contradiction | simpl; lia]. }
  transitivity (matched m :: matchAll (String.length s) r (after m)).
  - simpl. rewrite Hs. destruct (matched m); [contradiction | reflexivity].
  - f_equal. apply matchAll_fuel; lia.
Qed.

Lemma mapOutcome_returns {A B} (f : A -> outcome B) (l : list A) : forall ys,
  mapOutcome f l = Return ys -> Forall2 (fun x y => f x = Return y) l ys.
Proof.
  induction l as [|x l IH]; simpl; intros ys H.
  - apply Return_inj in H. subst. constructor.
  - bind_inv H. apply Return_inj in H. subst. constructor; auto.
Qed.

(** X16.  [parseToneList] reads a text group by group: a text without an
    opening bracket is the empty list (not an error); otherwise the first
    bracketed run of digits, minus signs, commas and spaces is handed to
    [parseTone], brackets included, and the list goes on with what follows
    the closing bracket.  A group without four integers therefore makes the
    whole list throw. *)
Theorem parseToneList_groups :
  (forall s, anyOf isOpenBracket s = false -> parseToneList s = Return []) /\
  (forall pre o body c rest,
     anyOf isOpenBracket pre = false ->
     isOpenBracket o = true -> allOf isToneChar body = true -> body <> "" ->
     isCloseBracket c = true ->
     parseToneList (pre +:+ String o (body +:+ String c rest))
     = (tone ← parseTone (String o (body +:+ String c ""));
        tones ← parseToneList rest;
        mret (tone :: tones))) /\
  (forall pre o body c rest,
     anyOf isOpenBracket pre = false ->
     isOpenBracket o = true -> allOf isToneChar body = true -> body <> "" ->
     isCloseBracket c = true ->
     ~ hasTonePattern (String o (body +:+ String c "")) ->
     parseToneList (pre +:+ String o (body +:+ String c rest))
     = Throw (Error ("Tone parse error: " +:+ String o (body +:+ String c "")))).
Proof.
  assert (forall pre o body c rest,
     anyOf isOpenBracket pre = false ->
     isOpenBracket o = true -> allOf isToneChar body = true -> body <> "" ->
     isCloseBracket c = true ->
     parseToneList (pre +:+ String o (body +:+ String c rest))
     = (tone ← parseTone (String o (body +:+ String c ""));
        tones ← parseToneList rest;
        mret (tone :: tones))) as Hstep.
  { intros pre o body c rest Hpre Ho Hbody Hne Hc.
    destruct (toneList_search_first pre o body c rest Hpre Ho Hbody Hne Hc)
      as (m & Hs & Hm & Ha).
    unfold parseToneList.
    rewrite (matchGlobal_first _ _ m Hs) by (rewrite Hm; discriminate).
    rewrite Hm, Ha. reflexivity. }
  split; [|split].
  - intros s Hs. unfold parseToneList, matchGlobal. simpl.
    rewrite (toneList_no_bracket s Hs). reflexivity.
  - exact Hstep.
  - intros pre o body c rest Hpre Ho Hbody Hne Hc Hno.
    rewrite (Hstep pre o body c rest Hpre Ho Hbody Hne Hc).
    apply parseTone_throws_iff in Hno. rewrite Hno. reflexivity.
Qed.

(** X17.  Every tone of a list that [parseToneList] returns has four
    components, the last of which is not negative, and the list has one tone
    for each bracketed group that the global search finds. *)
Theorem parseToneList_tones (s : string) (tones : list (list Z)) :
  parseToneList s = Return tones ->
  Forall (fun tone => exists r g b gray, tone = [r; g; b; gray] /\ 0 <= gray) tones /\
  length tones = length (matchGlobal toneListPattern s).
Proof.
  unfold parseToneList. intros H. apply mapOutcome_returns in H.
  split.
  - induction H as [|x y l ys Hxy _ IH]; constructor; [|exact IH].
    exact (parseTone_gray_nonneg x y Hxy).
  - symmetry. eapply Forall2_length, H.
Qed.

Lemma parseToneList_tones_witness :
  parseToneList "(27, -14, -14, 0); [54 -27 -27 0]"
  = Return [[27; -14; -14; 0]; [54; -27; -27; 0]] /\
  Forall (fun tone => exists r g b gray, tone = [r; g; b; gray] /\ 0 <= gray)
    [[27; -14; -14; 0]; [54; -27; -27; 0]].
Proof.
  assert (parseToneList "(27, -14, -14, 0); [54 -27 -27 0]"
          = Return [[27; -14; -14; 0]; [54; -27; -27; 0]]) as E
    by (vm_compute; reflexivity).
  split; [exact E|].
  exact (proj1 (parseToneList_tones _ _ E)).
Defined.

(** ** What "Parameter init" stores *)

Lemma onText_returns {A} (f : string -> outcome A) (x : option string) a :
  onText f x = Return a -> exists s, x = Some s /\ f s = Return a.
Proof. destruct x as [s|]; [|discriminate]. intros H. exists s. auto. Qed.

Lemma initParam_parts Parameters Param :
  initParam Parameters = Return Param ->
  exists newGameStart dawnStart dayStart duskStart nightStart per
         dawnPhases daylight duskPhases night presets,
    (onText parseTimeOfDay (Parameters !! "New Game Start Time") = Return newGameStart /\
     onText parseTimeOfDay (Parameters !! "Dawn Start Time") = Return dawnStart /\
     onText parseTimeOfDay (Parameters !! "Day Start Time") = Return dayStart /\
     onText parseTimeOfDay (Parameters !! "Dusk Start Time") = Return duskStart /\
     onText parseTimeOfDay (Parameters !! "Night Start Time") = Return nightStart) /\
    (NumberOf (Parameters !! "Minutes Per Tone Phase") = Return per /\
     onText parseToneList (Parameters !! "Dawn Tone Phases") = Return dawnPhases /\
     onText parseTone (Parameters !! "Daylight Tone") = Return daylight /\
     onText parseToneList (Parameters !! "Dusk Tone Phases") = Return duskPhases /\
     onText parseTone (Parameters !! "Night Tone") = Return night) /\
    foldOutcome (addLightingPreset Parameters) ∅ (seq 1 LIGHTING_COLLECTION_LENGTH)
    = Return presets /\
    (Param !! "DawnStartTime" = Some (timeValue dawnStart) /\
     Param !! "DuskStartTime" = Some (timeValue duskStart) /\
     Param !! "MinutesPerTonePhase" = Some (numberValue per) /\
     Param !! "DawnTonePhases" = Some (toneListValue dawnPhases) /\
     Param !! "DuskTonePhases" = Some (toneListValue duskPhases)) /\
    (Param !! "DawnEndTime"
     = Some (numberValue ((fun m => _totalMinutes dawnStart + m * Z.of_nat (length dawnPhases))
                          <$> per)) /\
     Param !! "DuskEndTime"
     = Some (numberValue ((fun m => _totalMinutes duskStart + m * Z.of_nat (length duskPhases))
                          <$> per))) /\
    Param !! "LightingPresets" = Some (VObject presets).
Proof.
  unfold initParam. intros H. bind_inv H.
  cbv beta zeta in H. apply Return_inj in H. subst Param.
  do 11 eexists.
  split; [repeat match goal with |- _ /\ _ => split end; eassumption|].
  split; [repeat match goal with |- _ /\ _ => split end; eassumption|].
  split; [eassumption|].
  split; [repeat match goal with |- _ /\ _ => split end; now simplify_map_eq|].
  split; [split; now simplify_map_eq|].
  now simplify_map_eq.
Qed.

(** X18.  "Parameter init" completes only when each of the five time
    parameters is present and holds an [H:MM] pattern, each of the two tone
    parameters is present and holds four integers, and the two lists of
    tone phases are present: a missing or malformed one of them stops the
    script. *)
Theorem initParam_requires Parameters Param :
  initParam Parameters = Return Param ->
  (forall name, In name timeParameters ->
     exists s, Parameters !! name = Some s /\ hasClockPattern s) /\
  (forall name, In name toneParameters ->
     exists s, Parameters !! name = Some s /\ hasTonePattern s) /\
  (forall name, In name toneListParameters -> is_Some (Parameters !! name)).
Proof.
  intros H.
  apply initParam_parts in H
    as (t1 & t2 & t3 & t4 & t5 & per & l1 & n1 & l2 & n2 & presets
        & (H1 & H2 & H3 & H4 & H5) & (_ & L1 & N1 & L2 & N2) & _).
  split; [|split].
  - intros name [<- | [<- | [<- | [<- | [<- | []]]]]].
    all: match goal with
         | Ht : onText parseTimeOfDay (?P !! ?n) = Return ?t
           |- exists s, ?P !! ?n = Some s /\ _ =>
             apply onText_returns in Ht as (s & Hs & Ht); exists s; split; [exact Hs|];
             apply parseTimeOfDay_returns_iff; eexists; exact Ht
         end.
  - intros name [<- | [<- | []]].
    all: match goal with
         | Ht : onText parseTone (?P !! ?n) = Return ?t
           |- exists s, ?P !! ?n = Some s /\ _ =>
             apply onText_returns in Ht as (s & Hs & Ht); exists s; split; [exact Hs|];
             apply parseTone_returns_iff; eexists; exact Ht
         end.
  - intros name [<- | [<- | []]].
    all: match goal with
         | Ht : onText parseToneList (?P !! ?n) = Return ?t
           |- is_Some (?P !! ?n) =>
             apply onText_returns in Ht as (s & Hs & Ht); rewrite Hs; eexists; reflexivity
         end.
Qed.

Lemma initParam_default :
  exists Param, initParam defaultParameters = Return Param.
Proof.
  destruct installed_default as (Param & _ & H & _). exists Param. exact H.
Qed.

Lemma initParam_requires_witness :
  exists s, defaultParameters !! "Dusk Start Time" = Some s /\ hasClockPattern s.
Proof.
  destruct initParam_default as (Param & H).
  destruct (initParam_requires defaultParameters Param H) as (Ht & _).
  apply Ht. right. right. right. left. reflexivity.
Defined.





